(* ===== verification/_CoqProject ===== *)
-Q . S2P
Prelude.v
Types.v
Dimensions.v
Balance.v
BalanceReal.v
Advice.v
Profiles.v
Service.v
Chart.v
Panel.v
App.v
Provenance.v
Page.v
Header.v
