(* ===== verification/Prelude.v ===== *)
(** * Strategy Radar: a verification development

    The repository is a browser dashboard (React, TypeScript).  The user
    scores a project on five dimensions with sliders, or lets a mocked URL
    analysis fill them in.  The page then shows a balance index with risk
    warnings and strategic advice.

    ** The program and how its parts interact
    - The dimension registry (src/constants.ts) fixes the five labels.
      Every score list of the program follows their order.
    - The score store and the page (src/App.tsx, src/components/
      ScoreControls.tsx) hold the sliders and the page's flags.  Their
      handlers call the service asynchronously.
    - The balance analyzer is the [useMemo] of src/App.tsx.  It derives the
      index and the warnings from the sliders on every render.
    - The service (src/services/geminiService.ts) has two functions.
      [getDesignAdvice] is the advice engine.  [analyzeUrlAndScore] is the
      profile lookup, and it returns canned results.

    ** Files, in dependency order
    - [Prelude]: the [radar_scope] notation [o ?? d] (nullish coalescing),
      [sumZ] ([reduce] of a sum) and its lemmas, list lemmas, the tactics
      [zbool], [destruct_ifs] and [forall_in_list], the [radar] hint
      databases.
    - [Types]: the interfaces of src/types.ts as records and inductives,
      with [EqDecision] instances, and [Outcome] for a settled promise.
    - [Dimensions]: [DIMENSIONS], [IDEAL_DATA], and the five-slider view
      [Profile]/[profile_scores] in which the specification's rules are
      stated.
    - [Balance] (module [Balance]): the memo as exact integer arithmetic,
      [computeBalance].  With the spread [D = n * sum v^2 - (sum v)^2], the
      standard deviation is [sqrt D / n], and the rounding step
      [round_steps] is computed with [Z.sqrt_up].  [BalanceTheorems] holds
      the bounds, the all-unset and uniform cases, the characterisation of
      index 100, the low-score warnings, and independence from slider order
      (a [Proper] instance over [Permutation]).
    - [BalanceReal] (module [BalanceR]): the memo transliterated over the
      reals, with [sqrt], [Math.round] as [floor (x + 1/2)] and division by
      4.5.  [computeBalanceR_exact] proves it equal to [computeBalance], and
      [balanceIndex_antitone] that the index is antitone in the standard
      deviation (the specification's "inverse of standard deviation"),
      reaching 0 at a deviation of 4.5.
    - [Advice] (module [Advice]): [getDesignAdvice] and its parts: the
      classification chain [classify], [getScore], the average as [option Q]
      (NaN for an empty list), [Math.max]/[Math.min] as [option Z], the
      stable sort [sort_by_value] with [sort_by_value_unique], the
      improvement suggestions and the balance warning.  [AdviceSpec] states
      the rule table of the specification on five sliders and proves the
      code refines it.  It also proves the bounds, order and minimality of
      the improvement suggestions and when the balance warning appears.
    - [Profiles] (module [Profiles]): the four canned profiles,
      [analyzeUrlAndScore] with its [/(...)/i] tests as ASCII-lowercased
      substring search, and [toDimensionScores] (src/App.tsx, lines 62-69).
      [ProfileTheorems] covers rejection, selection priority, results in
      range, and how the canned advice differs from the engine's.
    - [Service]: the typeclass [StrategyService].  It is the interface the
      page relies on: the [Outcome] each of the two calls settles with
      (either may reject, and the page's [catch]es handle both), and the
      law that analysis scores lie in 0..10.  [geminiService] is the
      repository's instance, whose advice always resolves.
    - [App] (modules [App], [AppTheorems]): the page state [State], with
      all [useState] hooks, [urlInput], the debounced scores and the calls
      in flight ([pending]).  Each handler is a function, split at its
      [await] into a start and a [Settle] event.  [enabled] gives the
      widgets' rendering and [disabled] guards.  [reachable] gives the runs
      the page allows, and [Inv] holds on all of them (rule induction).
      Proved for any [StrategyService]: at most one call in flight, the
      error and success paths of the URL analysis and of the advice call.
      For the real service, a concrete run shows advice computed from stale
      debounced scores, and from every idle page whose URL resolves, asking
      for advice after the analysis replaces the canned suggestions by the
      engine's different advice on the same sliders.  Termination: the events no user triggers (the
      debounce timer, calls settling) lower the measure [env_measure]
      (two per call in flight, one for an armed timer), so [env_step] is
      well founded ([wf_incl] into [ltof]) and no infinite run of them
      exists.
    - [Provenance] (module [Provenance]): every suggestion a reachable
      page shows is the service's advice on a well-formed slider list or
      the suggestions of a resolved analysis, and every error is one of the
      page's three fixed messages (lifting a property of the service's
      outputs to reachable states by rule induction).
    - [Chart] (modules [Chart], [ChartTheorems]): src/components/
      RadarChartComponent.tsx.  [utf16_units] decodes a label into the
      UTF-16 code units that JavaScript's [length] and [substring] count.
      [customizedAxisTick] splits a label longer than 8 units at half its
      length, [customizedDot] picks the dot, and [combinedData] merges the
      sliders with [IDEAL_DATA] row by row.  The theorems: the tick's two
      lines read back as the label (a round trip), the split lengths, the
      registry labels never split, a split that can cut a surrogate pair,
      and the rows of sliders in registry order.  [radarChartComponent]
      gives what recharts is handed: the axis labels, the radius domain
      [0, 10], and each [<Radar>]'s props with the points it reads by its
      [dataKey] ([row_field]).
    - [Panel] (modules [Panel], [PanelTheorems]): src/components/
      SuggestionsPanel.tsx as a function from its props to a view record:
      the balance colour and its [replace]d text class, the risk card, and
      the content area of [renderContent].  The theorems: the colour bands,
      the priority loading > error > prompt > advice (an empty error is
      falsy), and that [solutionTypeMap] is total and injective.
    - [Page] (modules [Page], [PageTheorems]): the render of [App] (lines
      103-158) composing [ScoreControls], the chart area and the panel from
      an [App.State] and the memo of [Balance].  The slider list reads
      [scores[index]] and is [None] where that read would throw.  On every
      reachable state: the sliders render, labelled as the scores they
      show; the panel is loading exactly while a call is in flight; the
      chart draws the sliders, each with the dot of its dimension key; the
      debounced copy is up to date whenever its timer is idle.  Liveness:
      from every reachable state one
      allowed [Settle] leads to an idle page, and from every idle state with
      a score set an allowed run shows the advice on the current sliders.
      A URL error shows both under the input and in the panel.  Every
      point the chart plots is defined and inside its radius domain, and
      the [feasible] field of [IDEAL_DATA] is never plotted.
    - [Header] (modules [Header], [HeaderTheorems]): src/components/
      Header.tsx, a component without state, as the token sequence of its
      markup ([header_jsx]) and the JSX rule that builds elements
      ([jsx_elements]: a closing tag names the innermost open element).
      The markup is rejected: a [<p>] inside a [<p>] is never closed (a
      computation on the file's markup, recorded as a finding).

    ** Modelling choices and bounds
    - Slider values are integers (range inputs, [parseInt]), so JavaScript
      numbers are [Z].  The real-number reference in [BalanceReal] is exact
      real arithmetic.  IEEE double rounding is not modelled: the integer
      model is the mathematically exact result of the source's formula.
    - Strings are [String.string], that is UTF-8 bytes.  Equality of labels
      and the ASCII regexes mean the same on bytes as on UTF-16.
    - No fuel is needed: every function is structurally recursive
      ([utf16_units] on the string, [slider_rows] on the registry,
      [jsx_build] on the token list).
      Liveness is proved by exhibiting the run: at most one [Settle], or
      the debounce, the click and the [Settle].
    - A JavaScript string is UTF-16.  [Chart.utf16_units] gives the code
      units where [length] and [substring] matter (the axis tick).
    - Time is not modelled.  The 1000/1500 ms service delays and the 500 ms
      debounce are events that may happen in any order.  This
      over-approximates the real schedules, so the invariants hold a
      fortiori.
    - src/hooks/useDebounce is not in the snapshot.  It is modelled from its
      use: the timer copies the latest scores.

    ** Not modelled
    - src/components/Icons is imported but not in the snapshot; the views
      record only which icon is chosen ([cv_analyzeSpinner],
      [cv_adviceSpinner], [Content]).
    - Class names other than the computed colours, and the recharts drawing
      itself (polar geometry, gradient, tooltip, legend), are layout and
      library calls with no decision of the program's own.  What each
      component decides to show, and the data and props it hands to
      recharts, are modelled in [Chart], [Panel], [Page] and [Header]. *)

From Stdlib Require Import ZArith List Lia Permutation Morphisms Sorted.
Import ListNotations.

Declare Scope radar_scope.
Delimit Scope radar_scope with radar.

Create HintDb radar.
Create Rewrite HintDb radar_rw.

(** ** JavaScript idioms *)

(** [o ?? d]: the nullish-coalescing operator applied to an optional
    chain, as in [scores.find(...)?.value ?? 0]. *)
Definition nullish {A : Type} (o : option A) (d : A) : A :=
  match o with Some x => x | None => d end.
Notation "o ?? d" := (nullish o d) (at level 40, left associativity) : radar_scope.

(** [values.reduce((acc, val) => acc + val, 0)] on integer-valued numbers:
    a left fold from 0. *)
Definition sumZ (l : list Z) : Z := fold_left Z.add l 0%Z.

(** ** Boolean comparisons on [Z] *)

(** Case on every boolean comparison of [Z] in the goal and the context,
    leaving the propositional facts for [lia]. *)
Ltac zbool :=
  repeat match goal with
  | |- context [Z.ltb ?a ?b] => destruct (Z.ltb_spec a b)
  | |- context [Z.leb ?a ?b] => destruct (Z.leb_spec a b)
  | |- context [Z.eqb ?a ?b] => destruct (Z.eqb_spec a b)
  | H : context [Z.ltb ?a ?b] |- _ => destruct (Z.ltb_spec a b)
  | H : context [Z.leb ?a ?b] |- _ => destruct (Z.leb_spec a b)
  | H : context [Z.eqb ?a ?b] |- _ => destruct (Z.eqb_spec a b)
  end.

(** Prove [forall x, In x [a; b; ...] -> P x] by evaluating [P] at each
    element of a concrete list. *)
Ltac forall_in_list :=
  let x := fresh "x" in let Hx := fresh "Hx" in
  intros x Hx; simpl in Hx;
  repeat match goal with
         | H : _ \/ _ |- _ => destruct H as [<- | H]
         | H : _ = x |- _ => subst x
         | H : False |- _ => destruct H
         end.

(** Case on the boolean conditions of the [if]s in the goal. *)
Ltac destruct_ifs :=
  repeat match goal with
         | |- context [if ?b then _ else _] => destruct b
         end.

(** ** Sums *)

Section Sums.
Local Open Scope Z_scope.

Lemma fold_left_add_acc (l : list Z) (a : Z) :
  fold_left Z.add l a = a + fold_left Z.add l 0.
Proof.
  revert a. induction l as [|x l IH]; intros a; simpl; [lia|].
  rewrite (IH (a + x)), (IH x). lia.
Qed.

Lemma sumZ_nil : sumZ [] = 0.
Proof. reflexivity. Qed.

Lemma sumZ_cons (x : Z) (l : list Z) : sumZ (x :: l) = x + sumZ l.
Proof. unfold sumZ; simpl. apply fold_left_add_acc. Qed.

Lemma sumZ_app (l1 l2 : list Z) : sumZ (l1 ++ l2) = sumZ l1 + sumZ l2.
Proof.
  induction l1 as [|x l1 IH]; simpl; [reflexivity|].
  rewrite !sumZ_cons, IH. lia.
Qed.

Lemma sumZ_nonneg (l : list Z) : Forall (fun v => 0 <= v) l -> 0 <= sumZ l.
Proof.
  induction 1; [reflexivity|]. rewrite sumZ_cons. lia.
Qed.

Lemma sumZ_pos (l : list Z) :
  Forall (fun v => 0 < v) l -> l <> [] -> 0 < sumZ l.
Proof.
  induction 1 as [|x l Hx Hl IH]; intros Hne; [congruence|].
  rewrite sumZ_cons. destruct l as [|y l].
  - rewrite sumZ_nil. lia.
  - assert (0 < sumZ (y :: l)) by (apply IH; discriminate). lia.
Qed.

Lemma sumZ_perm (l1 l2 : list Z) : Permutation l1 l2 -> sumZ l1 = sumZ l2.
Proof.
  induction 1; rewrite ?sumZ_cons; lia.
Qed.

Lemma sumZ_const (c : Z) (l : list Z) :
  Forall (fun v => v = c) l -> sumZ l = Z.of_nat (length l) * c.
Proof.
  induction 1; simpl length; [reflexivity|]. rewrite sumZ_cons. lia.
Qed.

Lemma sumZ_le_const (c : Z) (l : list Z) :
  Forall (fun v => v <= c) l -> sumZ l <= Z.of_nat (length l) * c.
Proof.
  induction 1; simpl length; [rewrite sumZ_nil; lia|]. rewrite sumZ_cons. lia.
Qed.

(** A sum of a quadratic in the elements, split into the sums of the
    squares, of the elements and of the ones. *)
Lemma sumZ_map_quadratic (a b c : Z) (l : list Z) :
  sumZ (map (fun v => a * (v * v) + b * v + c) l)
  = a * sumZ (map (fun v => v * v) l) + b * sumZ l + c * Z.of_nat (length l).
Proof.
  induction l as [|x l IH]; cbn [map length]; [rewrite !sumZ_nil; ring|].
  rewrite !sumZ_cons, IH, Nat2Z.inj_succ. ring.
Qed.

(** A sum of non-negative terms is zero only if every term is. *)
Lemma sumZ_nonneg_zero (l : list Z) :
  Forall (fun v => 0 <= v) l -> sumZ l = 0 -> Forall (fun v => v = 0) l.
Proof.
  induction 1 as [|x l Hx Hl IH]; intros Hs; constructor;
    rewrite sumZ_cons in Hs; pose proof (sumZ_nonneg l Hl); [lia|].
  apply IH. lia.
Qed.
End Sums.

#[export] Instance sumZ_Proper : Proper (@Permutation Z ==> eq) sumZ.
Proof. intros l1 l2 H. exact (sumZ_perm l1 l2 H). Qed.

(** ** Lists *)

(** [filter] keeps a permutation a permutation. *)
Lemma Permutation_filter {A : Type} (f : A -> bool) (l1 l2 : list A) :
  Permutation l1 l2 -> Permutation (filter f l1) (filter f l2).
Proof.
  induction 1; simpl; try destruct (f x); try destruct (f y); eauto using Permutation.
Qed.

#[export] Instance filter_Proper {A : Type} (f : A -> bool) :
  Proper (@Permutation A ==> @Permutation A) (filter f).
Proof. intros l1 l2. apply Permutation_filter. Qed.

Lemma in_firstn {A : Type} (n : nat) (x : A) (l : list A) : In x (firstn n l) -> In x l.
Proof.
  intros H. rewrite <- (firstn_skipn n l). apply in_or_app. left. exact H.
Qed.

(** An element of a list is in its first [n] elements or in the rest. *)
Lemma in_firstn_skipn {A : Type} (n : nat) (x : A) (l : list A) :
  In x l -> In x (firstn n l) \/ In x (skipn n l).
Proof. rewrite <- (firstn_skipn n l) at 1. apply in_app_or. Qed.

(** A sorted list splits into sorted parts, every element of the first
    below every element of the second. *)
Lemma StronglySorted_app_inv {A : Type} (R : A -> A -> Prop) (l1 l2 : list A) :
  StronglySorted R (l1 ++ l2) ->
  StronglySorted R l1 /\ StronglySorted R l2 /\ (forall x y, In x l1 -> In y l2 -> R x y).
Proof.
  induction l1 as [|a l1 IH]; simpl; intros H.
  - split; [constructor|split; [exact H|intros x y []]].
  - apply StronglySorted_inv in H as [H Ha]. destruct (IH H) as (H1 & H2 & H12).
    rewrite Forall_app in Ha. destruct Ha as [Ha1 Ha2].
    split; [constructor; assumption|split; [assumption|]].
    intros x y [<-|Hx] Hy; [|auto]. rewrite Forall_forall in Ha2. auto.
Qed.

#[export] Hint Resolve in_firstn : radar.

#[export] Hint Rewrite sumZ_nil sumZ_cons sumZ_app : radar_rw.
#[export] Hint Resolve sumZ_nonneg sumZ_pos : radar.
