(* ===== verification/Types.v ===== *)
(** * Types: the data of src/types.ts

    The interfaces of [types.ts] as records, the string unions as inductive
    types with the source's constructors, and decidable equality for all of
    them (stdpp's [EqDecision]).  JavaScript numbers that the program only
    ever holds as integers (slider positions, canned scores) are [Z].
    Field names that [types.ts] reuses across interfaces ([value],
    [subject], [dimension], [fullMark]) are kept by putting the second
    interface in a module of its own ([AIScore], [IdealData]). *)
From Stdlib Require Import ZArith List String.
From stdpp Require Import base decidable strings.
From S2P Require Import Prelude.

(** [Dimension['key']]: ['business' | 'tech' | 'user' | 'zeitgeist' | 'ai']. *)
Inductive DimensionKey := business | tech | user | zeitgeist | ai.

(** [interface Dimension]. *)
Record Dimension := mkDimension {
  key : DimensionKey;
  label : string;
  description : string
}.

(** [interface DimensionScore]: one slider of the page. *)
Record DimensionScore := mkDimensionScore {
  subject : string;
  value : Z;
  fullMark : Z
}.

(** [Suggestion['solutionType']]. *)
Inductive SolutionType := Innovative | Incremental | Defensive | Exploratory.

(** The anonymous element type of [Suggestion['improvementSuggestions']]. *)
Module Improvement.
Record t := mk {
  dimension : string;
  suggestion : string
}.
End Improvement.

(** [interface Suggestion]; the optional [balanceWarning?] is an [option]. *)
Record Suggestion := mkSuggestion {
  solutionType : SolutionType;
  strategicSummary : string;
  improvementSuggestions : list Improvement.t;
  balanceWarning : option string
}.

(** [interface IdealData]. *)
Module IdealData.
Record t := mk {
  subject : string;
  ideal : Z;
  feasible : Z;
  fullMark : Z
}.
End IdealData.

(** [interface AIScore]. *)
Module AIScore.
Record t := mk {
  dimension : string;
  value : Z
}.
End AIScore.

(** [interface AnalysisResult]. *)
Record AnalysisResult := mkAnalysisResult {
  scores : list AIScore.t;
  suggestions : Suggestion
}.

(** How an [async] function of the program settles: its promise resolves
    with a value or rejects with the message of the [Error] it throws. *)
Inductive Outcome (A : Type) :=
| Resolved (a : A)
| Rejected (msg : string).
Arguments Resolved {A} a.
Arguments Rejected {A} msg.

(** ** Decidable equality *)

#[export] Instance DimensionKey_eq_dec : EqDecision DimensionKey.
Proof. solve_decision. Defined.
#[export] Instance SolutionType_eq_dec : EqDecision SolutionType.
Proof. solve_decision. Defined.
#[export] Instance DimensionScore_eq_dec : EqDecision DimensionScore.
Proof. solve_decision. Defined.
#[export] Instance Improvement_eq_dec : EqDecision Improvement.t.
Proof. solve_decision. Defined.
#[export] Instance Suggestion_eq_dec : EqDecision Suggestion.
Proof. solve_decision. Defined.
#[export] Instance AIScore_eq_dec : EqDecision AIScore.t.
Proof. solve_decision. Defined.
#[export] Instance AnalysisResult_eq_dec : EqDecision AnalysisResult.
Proof. solve_decision. Defined.
#[export] Instance Outcome_eq_dec {A} `{EqDecision A} : EqDecision (Outcome A).
Proof. solve_decision. Defined.
