(* ===== verification/Dimensions.v ===== *)
(** * Dimensions: the dimension registry of src/constants.ts

    [DIMENSIONS] is the fixed list of the five scoring axes, in the order
    every score list of the program follows; [IDEAL_DATA] is the reference
    profile the radar chart draws.  The facts proved here (five distinct
    labels, keys in registry order) are what the other components use
    when they look a score up by its label. *)
From Stdlib Require Import ZArith List String.
From stdpp Require Import base decidable strings list.
From S2P Require Import Prelude Types.
Import ListNotations.
Local Open Scope string_scope.

(** The labels, named once so that the other files can refer to them. *)
Definition label_business : string := "商業可行性".
Definition label_tech : string := "技術可行性".
Definition label_user : string := "使用者價值".
Definition label_zeitgeist : string := "時代相關性".
Definition label_ai : string := "AI 整合潛力".

(** [export const DIMENSIONS: Dimension[]]. *)
Definition DIMENSIONS : list Dimension := [
  {| key := business; label := label_business;
     description := "與商業目標、收入潛力和市場契合度的對齊程度。" |};
  {| key := tech; label := label_tech;
     description := "實施的複雜性、可用資源和平台限制。" |};
  {| key := user; label := label_user;
     description := "解決真實使用者問題、可用性和吸引力的程度。" |};
  {| key := zeitgeist; label := label_zeitgeist;
     description := "與當前文化、社會和市場趨勢的相關性。" |};
  {| key := ai; label := label_ai;
     description := "利用AI增強功能、個人化或效率的潛力。" |}
].

(** [export const IDEAL_DATA = DIMENSIONS.map(d => ({...}))]. *)
Definition IDEAL_DATA : list IdealData.t :=
  map (fun d => {| IdealData.subject := label d; IdealData.ideal := 9;
                   IdealData.feasible := 6; IdealData.fullMark := 10 |}) DIMENSIONS.

(** The labels of the registry, in order. *)
Definition dimension_labels : list string := map label DIMENSIONS.

(** ** Facts about the registry *)

Lemma dimension_labels_unfold :
  dimension_labels = [label_business; label_tech; label_user; label_zeitgeist; label_ai].
Proof. reflexivity. Qed.

(** The five labels are pairwise distinct: a lookup by label is a lookup by
    dimension. *)
Lemma dimension_labels_NoDup : NoDup dimension_labels.
Proof. apply (bool_decide_unpack _). vm_compute. reflexivity. Qed.

(** The keys follow the order of the [key] union of [types.ts]. *)
Lemma DIMENSIONS_keys : map key DIMENSIONS = [business; tech; user; zeitgeist; ai].
Proof. reflexivity. Qed.

Lemma IDEAL_DATA_subjects : map IdealData.subject IDEAL_DATA = dimension_labels.
Proof. reflexivity. Qed.

(** ** The five sliders *)

(** One value per dimension: the content of the score store. *)
Record Profile := mkProfile {
  p_business : Z;
  p_tech : Z;
  p_user : Z;
  p_zeitgeist : Z;
  p_ai : Z
}.

Definition profile_value (p : Profile) (k : DimensionKey) : Z :=
  match k with
  | business => p_business p
  | tech => p_tech p
  | user => p_user p
  | zeitgeist => p_zeitgeist p
  | ai => p_ai p
  end.

(** The slider list holding the values of [p], built as [App] builds its
    state: [DIMENSIONS.map(d => ({ subject: d.label, value, fullMark: 10 }))]. *)
Definition profile_scores (p : Profile) : list DimensionScore :=
  map (fun d => {| subject := label d; value := profile_value p (key d); fullMark := 10 |})
      DIMENSIONS.

Lemma profile_scores_subjects (p : Profile) : map subject (profile_scores p) = dimension_labels.
Proof. reflexivity. Qed.

Lemma profile_scores_values (p : Profile) :
  map value (profile_scores p) = [p_business p; p_tech p; p_user p; p_zeitgeist p; p_ai p].
Proof. reflexivity. Qed.
