(* ===== verification/Balance.v ===== *)
(** * Balance: the balance index and risk radar of src/App.tsx

    The [useMemo] of [App] (src/App.tsx, lines 82-101) computes, from the
    current sliders, a balance index (the population standard deviation of
    the set scores, mapped onto 0..100) and the list of risk warnings shown
    by the risk radar.  The source computes with [Math.sqrt] and
    [Math.round]; this file is the executable model of the same function in
    exact integer arithmetic:
    - the [n] set scores ([value > 0]) have sum [S] and sum of squares [Q];
      their [spread] [D = n * Q - S * S] is [n^2] times the variance, so the
      standard deviation is [sqrt D / n];
    - [Math.round((1 - sqrt D / n / 4.5) * 100)] is [100 - k] where
      [k = ceil(ceil(sqrt (160000 * D)) / (9 * n)) / 2] ([round_steps]);
    - [stdDev > 2.5 && mean > 0] is [25 * n * n < 4 * D && 0 < S].
    [BalanceReal] proves this model equal to the source's formula over the
    reals.  The theorems here: the index lies in 0..100, is 100 exactly
    when all set scores agree (for the five sliders), depends only on the
    multiset of set scores, and the warnings are the low-score ones in
    slider order followed by the imbalance warning when it applies. *)
From Stdlib Require Import ZArith List String Lia Permutation Morphisms.
From S2P Require Import Prelude Types Dimensions.
Import ListNotations.

Module Balance.
Local Open Scope Z_scope.

(** [scores.map(s => s.value).filter(v => v > 0)]. *)
Definition positive_values (scores : list DimensionScore) : list Z :=
  filter (fun v => 0 <? v) (map value scores).

(** [values.length]. *)
Definition count (l : list Z) : Z := Z.of_nat (List.length l).

(** The sum of the squares of the scores. *)
Definition sq_sum (l : list Z) : Z := sumZ (map (fun v => v * v) l).

(** [n^2] times the population variance [values.reduce((acc, val) => acc +
    Math.pow(val - mean, 2), 0) / values.length]. *)
Definition spread (l : list Z) : Z := count l * sq_sum l - sumZ l * sumZ l.

(** Ceiling of [a / b] for [b > 0]. *)
Definition ceil_div (a b : Z) : Z := (a + b - 1) / b.

(** [k] such that [Math.round((1 - stdDev / 4.5) * 100) = 100 - k]:
    [k = ceil(200 * stdDev / 9 - 1/2)], computed from [D] exactly. *)
Definition round_steps (l : list Z) : Z :=
  ceil_div (Z.sqrt_up (160000 * spread l)) (9 * count l) / 2.

(** [Math.max(0, Math.round((1 - stdDev / 4.5) * 100))]. *)
Definition balance_of (l : list Z) : Z := Z.max 0 (100 - round_steps l).

(** [stdDev > 2.5 && mean > 0]. *)
Definition high_imbalance (l : list Z) : bool :=
  (25 * (count l * count l) <? 4 * spread l) && (0 <? sumZ l).

(** The filter [s => s.value > 0 && s.value < 4]. *)
Definition is_low (s : DimensionScore) : bool := (0 <? value s) && (value s <? 4).

(** [`${s.subject} 分數過低，此維度需要立即關注。`]. *)
Definition low_score_warning (s : DimensionScore) : string :=
  String.append (subject s) " 分數過低，此維度需要立即關注。".

Definition imbalance_warning : string :=
  "各維度之間存在高度不平衡。專案可能會被拉向相互衝突的方向，從而增加風險。".

(** The object [{ balanceIndex, riskWarnings }] the memo returns. *)
Record BalanceResult := mkBalanceResult {
  balanceIndex : Z;
  riskWarnings : list string
}.

(** The body of the [useMemo] (src/App.tsx, lines 82-101). *)
Definition computeBalance (scores : list DimensionScore) : BalanceResult :=
  let values := positive_values scores in
  match values with
  | [] => mkBalanceResult 0 []
  | _ :: _ =>
      let warnings := map low_score_warning (filter is_low scores) in
      mkBalanceResult (balance_of values)
        (if high_imbalance values then warnings ++ [imbalance_warning] else warnings)
  end.

(** ** The spread *)

Lemma count_pos (l : list Z) : l <> [] -> 0 < count l.
Proof. destruct l; [congruence|]. unfold count; cbn [List.length]. lia. Qed.

Lemma count_nonneg (l : list Z) : 0 <= count l.
Proof. unfold count. lia. Qed.

(** [n * D] is the sum of the squared deviations [(n * v - S)^2]: the
    identity behind "[D] is [n^2] times the variance". *)
Lemma spread_identity (l : list Z) :
  count l * spread l
  = sumZ (map (fun v => (count l * v - sumZ l) * (count l * v - sumZ l)) l).
Proof.
  unfold spread, sq_sum.
  rewrite (map_ext (fun v => (count l * v - sumZ l) * (count l * v - sumZ l))
             (fun v => (count l * count l) * (v * v) + (-2 * count l * sumZ l) * v
                       + sumZ l * sumZ l)) by (intros; ring).
  rewrite sumZ_map_quadratic. unfold count. ring.
Qed.

Lemma squares_nonneg (f : Z -> Z) (l : list Z) :
  Forall (fun x => 0 <= x) (map (fun v => f v * f v) l).
Proof. apply Forall_map, Forall_forall. intros; apply Z.square_nonneg. Qed.

Lemma spread_nonneg (l : list Z) : 0 <= spread l.
Proof.
  destruct l as [|x l]; [reflexivity|].
  pose proof (count_pos (x :: l) ltac:(discriminate)) as Hn.
  pose proof (spread_identity (x :: l)) as Hid.
  pose proof (sumZ_nonneg _ (squares_nonneg (fun v => count (x :: l) * v - sumZ (x :: l)) (x :: l))).
  nia.
Qed.

(** The spread vanishes exactly when all the scores are equal. *)
Lemma spread_zero_iff (l : list Z) :
  spread l = 0 <-> (forall x y, In x l -> In y l -> x = y).
Proof.
  split.
  - intros HD x y Hx Hy.
    assert (Hn : 0 < count l) by (apply count_pos; intros ->; destruct Hx).
    pose proof (spread_identity l) as Hid. rewrite HD, Z.mul_0_r in Hid.
    pose proof (sumZ_nonneg_zero _ (squares_nonneg _ l) (eq_sym Hid)) as H0.
    rewrite Forall_map, Forall_forall in H0.
    pose proof (H0 x Hx) as Hx0; pose proof (H0 y Hy) as Hy0; cbv beta in Hx0, Hy0.
    apply Z.mul_eq_0 in Hx0, Hy0.
    apply (Z.mul_cancel_l x y (count l)); [lia|]. destruct Hx0, Hy0; lia.
  - destruct l as [|c l]; [reflexivity|]. intros Heq.
    assert (Hc : Forall (fun v => v = c) (c :: l))
      by (apply Forall_forall; intros v Hv; apply Heq; simpl; auto).
    unfold spread, sq_sum, count.
    rewrite (sumZ_const c _ Hc), (sumZ_const (c * c)), length_map;
      [ring|].
    apply Forall_map. eapply Forall_impl; [|exact Hc]. intros v ->. reflexivity.
Qed.

(** ** Rounding *)

Lemma ceil_div_spec (a b : Z) :
  0 < b -> b * (ceil_div a b - 1) < a <= b * ceil_div a b.
Proof.
  intros Hb. unfold ceil_div.
  pose proof (Z.div_mod (a + b - 1) b ltac:(lia)).
  pose proof (Z.mod_pos_bound (a + b - 1) b Hb). nia.
Qed.

Lemma ceil_div_nonneg (a b : Z) : 0 <= a -> 0 <= b -> 0 <= ceil_div a b.
Proof.
  intros Ha Hb. unfold ceil_div. destruct (Z.eq_dec b 0) as [->|Hb0].
  - rewrite Z.div_0_r. lia.
  - apply Z.div_pos; lia.
Qed.

Lemma round_steps_nonneg (l : list Z) : 0 <= round_steps l.
Proof.
  unfold round_steps. apply Z.div_pos; [|lia].
  apply ceil_div_nonneg; [apply Z.sqrt_up_nonneg|pose proof (count_nonneg l); lia].
Qed.

(** With equal scores nothing is rounded away. *)
Lemma round_steps_spread_zero (l : list Z) :
  l <> [] -> spread l = 0 -> round_steps l = 0.
Proof.
  intros Hne HD. pose proof (count_pos l Hne).
  unfold round_steps, ceil_div. rewrite HD. simpl (Z.sqrt_up (160000 * 0)).
  rewrite (Z.div_small (0 + 9 * count l - 1)) by lia. reflexivity.
Qed.

(** For at most five scores, any positive spread costs at least one point:
    [sqrt (160000 * D) >= 400 > 45 >= 9 * n]. *)
Lemma round_steps_spread_pos (l : list Z) :
  l <> [] -> count l <= 5 -> 0 < spread l -> 0 < round_steps l.
Proof.
  intros Hne Hn HD. pose proof (count_pos l Hne).
  assert (Hs : 400 <= Z.sqrt_up (160000 * spread l)).
  { rewrite <- (Z.sqrt_up_square 400) by lia. apply Z.sqrt_up_le_mono. lia. }
  pose proof (ceil_div_spec (Z.sqrt_up (160000 * spread l)) (9 * count l) ltac:(lia)).
  unfold round_steps. apply Z.div_str_pos. nia.
Qed.

Lemma balance_of_bounds (l : list Z) : 0 <= balance_of l <= 100.
Proof. unfold balance_of. pose proof (round_steps_nonneg l). lia. Qed.

(** [k = round_steps l] brackets [400 * sqrt D] between [9 n (2k - 1)] and
    [9 n (2k + 1)]: the two facts [BalanceReal] needs to show that
    [100 - k] is [Math.round] of the source's expression.  They are stated
    on squares, where they are integer facts. *)
Lemma round_steps_upper (l : list Z) :
  l <> [] ->
  160000 * spread l <= (9 * count l * (2 * round_steps l + 1)) * (9 * count l * (2 * round_steps l + 1)).
Proof.
  intros Hne. pose proof (count_pos l Hne). pose proof (spread_nonneg l).
  unfold round_steps.
  set (u := Z.sqrt_up (160000 * spread l)). set (c := 9 * count l).
  set (m := ceil_div u c).
  assert (Hu : 0 <= u) by apply Z.sqrt_up_nonneg.
  assert (HX : 160000 * spread l <= u * u).
  { destruct (Z.eq_dec (spread l) 0) as [->|]; [lia|].
    apply Z.sqrt_up_spec. lia. }
  pose proof (ceil_div_spec u c ltac:(lia)) as [_ Hm].
  pose proof (Z.div_mod m 2 ltac:(lia)). pose proof (Z.mod_pos_bound m 2 ltac:(lia)).
  assert (u <= c * (2 * (m / 2) + 1)) by nia.
  assert (u * u <= (c * (2 * (m / 2) + 1)) * (c * (2 * (m / 2) + 1)))
    by (apply Z.square_le_mono_nonneg; lia).
  lia.
Qed.

Lemma round_steps_lower (l : list Z) :
  l <> [] ->
  9 * count l * (2 * round_steps l - 1) < 0 \/
  (9 * count l * (2 * round_steps l - 1)) * (9 * count l * (2 * round_steps l - 1)) < 160000 * spread l.
Proof.
  intros Hne. pose proof (count_pos l Hne). pose proof (spread_nonneg l).
  destruct (Z.eq_dec (spread l) 0) as [HD|HD].
  { left. rewrite round_steps_spread_zero by assumption. lia. }
  unfold round_steps.
  set (u := Z.sqrt_up (160000 * spread l)). set (c := 9 * count l).
  set (m := ceil_div u c).
  assert (HX : Z.pred u * Z.pred u < 160000 * spread l) by (apply Z.sqrt_up_spec; lia).
  pose proof (ceil_div_spec u c ltac:(lia)) as [Hm _].
  pose proof (Z.div_mod m 2 ltac:(lia)). pose proof (Z.mod_pos_bound m 2 ltac:(lia)).
  assert (c * (2 * (m / 2) - 1) <= Z.pred u) by nia.
  destruct (Z.neg_nonneg_cases (c * (2 * (m / 2) - 1))); [left; assumption|right].
  assert ((c * (2 * (m / 2) - 1)) * (c * (2 * (m / 2) - 1)) <= Z.pred u * Z.pred u)
    by (apply Z.square_le_mono_nonneg; lia).
  lia.
Qed.

(** ** Permutations of the scores *)

#[export] Instance count_Proper : Proper (@Permutation Z ==> eq) count.
Proof. intros l1 l2 H. unfold count. now rewrite H. Qed.

#[export] Instance spread_Proper : Proper (@Permutation Z ==> eq) spread.
Proof. intros l1 l2 H. unfold spread, sq_sum. now rewrite H. Qed.

#[export] Instance balance_of_Proper : Proper (@Permutation Z ==> eq) balance_of.
Proof. intros l1 l2 H. unfold balance_of, round_steps. now rewrite H. Qed.

#[export] Instance high_imbalance_Proper : Proper (@Permutation Z ==> eq) high_imbalance.
Proof. intros l1 l2 H. unfold high_imbalance. now rewrite H. Qed.

#[export] Instance positive_values_Proper :
  Proper (@Permutation DimensionScore ==> @Permutation Z) positive_values.
Proof. intros l1 l2 H. unfold positive_values. now rewrite H. Qed.

(** ** The set scores *)

Lemma In_positive_values (scores : list DimensionScore) (v : Z) :
  In v (positive_values scores) <-> exists s, In s scores /\ value s = v /\ 0 < v.
Proof.
  unfold positive_values. rewrite filter_In, in_map_iff.
  split; [intros [[s [<- Hs]] Hv]; zbool; eauto; discriminate
         |intros (s & Hs & <- & Hv); zbool; eauto; lia].
Qed.

Lemma positive_values_nil_iff (scores : list DimensionScore) :
  positive_values scores = [] <-> (forall s, In s scores -> value s <= 0).
Proof.
  split.
  - intros Hnil s Hs. destruct (Z.le_gt_cases (value s) 0) as [|Hgt]; [assumption|].
    assert (Hin : In (value s) (positive_values scores))
      by (apply In_positive_values; eauto).
    rewrite Hnil in Hin. destruct Hin.
  - intros Hle. destruct (positive_values scores) as [|v vs] eqn:E; [reflexivity|].
    assert (Hin : In v (positive_values scores)) by (rewrite E; left; reflexivity).
    apply In_positive_values in Hin as (s & Hs & <- & Hv). specialize (Hle s Hs). lia.
Qed.

Lemma positive_values_pos (scores : list DimensionScore) :
  Forall (fun v => 0 < v) (positive_values scores).
Proof.
  apply Forall_forall. intros v Hv. apply In_positive_values in Hv as (_ & _ & _ & Hv). exact Hv.
Qed.

Lemma length_positive_values (scores : list DimensionScore) :
  (List.length (positive_values scores) <= List.length scores)%nat.
Proof.
  unfold positive_values. rewrite <- (length_map value scores). apply filter_length_le.
Qed.

(** A low score is a set score. *)
Lemma filter_is_low_nil (scores : list DimensionScore) :
  positive_values scores = [] -> filter is_low scores = [].
Proof.
  rewrite positive_values_nil_iff. intros Hle.
  induction scores as [|s scores IH]; [reflexivity|]. simpl.
  assert (Hs : value s <= 0) by (apply Hle; left; reflexivity).
  unfold is_low at 1. destruct (Z.ltb_spec 0 (value s)); [lia|]. simpl. apply IH. intros t Ht. apply Hle. right. exact Ht.
Qed.

Lemma high_imbalance_nil : high_imbalance [] = false.
Proof. reflexivity. Qed.

End Balance.

Module BalanceTheorems.
Import Balance.
Local Open Scope Z_scope.

(** The balance index the memo returns, as a function of the set scores. *)
Lemma balanceIndex_computeBalance (scores : list DimensionScore) :
  balanceIndex (computeBalance scores)
  = match positive_values scores with [] => 0 | l => balance_of l end.
Proof. unfold computeBalance; cbv zeta. destruct (positive_values scores); reflexivity. Qed.

(** C2: The balance index always lies between 0 and 100. *)
Theorem computeBalance_index_bounds (scores : list DimensionScore) :
  0 <= balanceIndex (computeBalance scores) <= 100.
Proof.
  rewrite balanceIndex_computeBalance.
  destruct (positive_values scores); [lia|apply balance_of_bounds].
Qed.

(** C13: With no score set (every slider at 0), the memo short-circuits:
    the index is 0 and there is no warning. *)
Theorem computeBalance_unset (scores : list DimensionScore) :
  (forall s, In s scores -> value s <= 0) -> computeBalance scores = mkBalanceResult 0 [].
Proof.
  intros H. apply positive_values_nil_iff in H. unfold computeBalance. now rewrite H.
Qed.

(** The risk warnings the memo returns, as a function of the scores. *)
Lemma riskWarnings_computeBalance (scores : list DimensionScore) :
  riskWarnings (computeBalance scores)
  = map low_score_warning (filter is_low scores)
    ++ (if high_imbalance (positive_values scores) then [imbalance_warning] else []).
Proof.
  unfold computeBalance; cbv zeta. destruct (positive_values scores) eqn:E.
  - rewrite (filter_is_low_nil _ E). reflexivity.
  - simpl riskWarnings. destruct (high_imbalance _); [reflexivity|now rewrite app_nil_r].
Qed.

(** C16: Every score strictly between 0 and 4 has its low-score warning,
    which names its dimension, among the risk warnings. *)
Theorem computeBalance_low_score_warning (scores : list DimensionScore) (s : DimensionScore) :
  In s scores -> 0 < value s < 4 ->
  In (low_score_warning s) (riskWarnings (computeBalance scores)).
Proof.
  intros Hs Hv. rewrite riskWarnings_computeBalance. apply in_or_app. left.
  apply in_map, filter_In. split; [assumption|].
  unfold is_low. apply andb_true_intro; split; apply Z.ltb_lt; lia.
Qed.

(** C14: When every slider holds the same positive value, the index is 100
    and there is no imbalance warning. *)
Theorem computeBalance_uniform (scores : list DimensionScore) (c : Z) :
  scores <> [] -> 0 < c -> (forall s, In s scores -> value s = c) ->
  computeBalance scores = mkBalanceResult 100 (map low_score_warning (filter is_low scores)).
Proof.
  intros Hne Hc Hall.
  assert (Heq : forall x y, In x (positive_values scores) -> In y (positive_values scores) -> x = y).
  { intros x y Hx Hy. apply In_positive_values in Hx as (s & Hs & <- & _).
    apply In_positive_values in Hy as (t & Ht & <- & _). rewrite (Hall s Hs), (Hall t Ht). reflexivity. }
  apply spread_zero_iff in Heq.
  destruct scores as [|s0 rest]; [congruence|].
  assert (Hin : In (value s0) (positive_values (s0 :: rest)))
    by (apply In_positive_values; exists s0; rewrite (Hall s0 (or_introl eq_refl));
        split; [left; reflexivity|split; [reflexivity|assumption]]).
  unfold computeBalance; cbv zeta. destruct (positive_values (s0 :: rest)) as [|v vs] eqn:E; [destruct Hin|].
  unfold balance_of, high_imbalance. rewrite round_steps_spread_zero, Heq by (congruence || assumption).
  pose proof (count_nonneg (v :: vs)).
  rewrite (proj2 (Z.ltb_ge _ _)) by nia. reflexivity.
Qed.

(** C15: For the five sliders, the index is 100 exactly when all the set
    scores are equal. *)
Theorem computeBalance_index_100_iff (scores : list DimensionScore) :
  (List.length scores <= 5)%nat -> positive_values scores <> [] ->
  (balanceIndex (computeBalance scores) = 100 <->
   forall x y, In x (positive_values scores) -> In y (positive_values scores) -> x = y).
Proof.
  intros Hlen Hne. rewrite balanceIndex_computeBalance, <- spread_zero_iff.
  pose proof (length_positive_values scores) as Hpl.
  destruct (positive_values scores) as [|v vs]; [congruence|].
  assert (Hn : count (v :: vs) <= 5) by (unfold count; lia).
  pose proof (spread_nonneg (v :: vs)). unfold balance_of. split.
  - intros H100. destruct (Z.eq_dec (spread (v :: vs)) 0) as [|Hpos]; [assumption|].
    pose proof (round_steps_spread_pos (v :: vs) ltac:(discriminate) Hn ltac:(lia)). lia.
  - intros HD. rewrite round_steps_spread_zero by (discriminate || assumption). reflexivity.
Qed.

(** The balance index does not depend on the order of the sliders. *)
Theorem computeBalance_index_perm (s1 s2 : list DimensionScore) :
  Permutation s1 s2 -> balanceIndex (computeBalance s1) = balanceIndex (computeBalance s2).
Proof.
  intros H. rewrite !balanceIndex_computeBalance.
  pose proof (positive_values_Proper s1 s2 H) as Hp.
  destruct (positive_values s1) as [|v vs], (positive_values s2) as [|w ws];
    try reflexivity.
  - apply Permutation_nil in Hp. discriminate.
  - symmetry in Hp. apply Permutation_nil in Hp. discriminate.
  - now rewrite Hp.
Qed.

(** ** Witnesses *)

Definition sample_profile : Profile := mkProfile 9 7 6 4 3.

Lemma computeBalance_unset_witness :
  (forall s, In s (profile_scores (mkProfile 0 0 0 0 0)) -> value s <= 0) /\
  computeBalance (profile_scores (mkProfile 0 0 0 0 0)) = mkBalanceResult 0 [].
Proof.
  assert (H : forall s, In s (profile_scores (mkProfile 0 0 0 0 0)) -> value s <= 0)
    by (forall_in_list; simpl; lia).
  split; [exact H|exact (computeBalance_unset _ H)].
Defined.

Lemma computeBalance_low_score_warning_witness :
  In (low_score_warning {| subject := label_ai; value := 3; fullMark := 10 |})
     (riskWarnings (computeBalance (profile_scores sample_profile))).
Proof.
  apply (computeBalance_low_score_warning (profile_scores sample_profile)
           {| subject := label_ai; value := 3; fullMark := 10 |}).
  - do 4 right. left. reflexivity.
  - simpl. lia.
Defined.

Lemma computeBalance_uniform_witness :
  computeBalance (profile_scores (mkProfile 7 7 7 7 7))
  = mkBalanceResult 100 (map low_score_warning (filter is_low (profile_scores (mkProfile 7 7 7 7 7)))).
Proof.
  apply (computeBalance_uniform _ 7); [discriminate|lia|forall_in_list; reflexivity].
Defined.

Lemma computeBalance_index_100_iff_witness :
  (balanceIndex (computeBalance (profile_scores sample_profile)) = 100 <->
   forall x y, In x (positive_values (profile_scores sample_profile)) ->
               In y (positive_values (profile_scores sample_profile)) -> x = y).
Proof.
  apply computeBalance_index_100_iff; [simpl; lia|vm_compute; discriminate].
Defined.

Lemma computeBalance_index_perm_witness :
  balanceIndex (computeBalance (profile_scores sample_profile))
  = balanceIndex (computeBalance (rev (profile_scores sample_profile))).
Proof. apply computeBalance_index_perm, Permutation_rev. Defined.

End BalanceTheorems.
