(* ===== verification/BalanceReal.v ===== *)
(** * BalanceReal: the balance memo as written, over the reals

    [BalanceR.computeBalanceR] transliterates the [useMemo] of src/App.tsx
    (lines 82-101) with JavaScript numbers read as real numbers:
    [Math.sqrt] is [sqrt], [Math.round] is [js_round] ([floor (x + 1/2)],
    which rounds halves up as [Math.round] does), the mean and the
    population variance divide by [values.length].  The main theorem,
    [computeBalanceR_exact], shows that the executable integer model
    [Balance.computeBalance] computes exactly this function on every list of
    integer-valued sliders, so every theorem about [Balance] is a theorem
    about the formula of the source.  Rounding of IEEE doubles is not
    modelled (see the header of [Prelude]). *)
From Stdlib Require Import ZArith Reals Lra Lia List String.
From S2P Require Import Prelude Types Balance.
Import ListNotations.

Module BalanceR.
Import Balance.
Local Open Scope R_scope.
Local Open Scope bool_scope.

(** The JavaScript comparison [a < b] on numbers. *)
Definition Rltb (a b : R) : bool := if Rlt_dec a b then true else false.

(** [values.reduce((acc, val) => acc + val, 0)]. *)
Definition sumR (l : list R) : R := fold_left Rplus l 0.

(** [Math.round]: the nearest integer, halves rounded up. *)
Definition js_round (x : R) : Z := Zfloor (x + / 2).

(** [scores.map(s => s.value).filter(v => v > 0)]. *)
Definition valuesR (scores : list DimensionScore) : list R :=
  filter (fun v => Rltb 0 v) (map (fun s => IZR (value s)) scores).

(** [const mean = sum / values.length]. *)
Definition meanR (values : list R) : R := sumR values / INR (List.length values).

(** [Math.sqrt(values.reduce((acc, val) => acc + Math.pow(val - mean, 2), 0)
    / values.length)]. *)
Definition stdDevR (values : list R) : R :=
  sqrt (sumR (map (fun v => (v - meanR values) ^ 2) values) / INR (List.length values)).

(** [s.value > 0 && s.value < 4]. *)
Definition is_lowR (s : DimensionScore) : bool :=
  Rltb 0 (IZR (value s)) && Rltb (IZR (value s)) 4.

(** The [useMemo] of src/App.tsx, lines 82-101. *)
Definition computeBalanceR (scores : list DimensionScore) : BalanceResult :=
  let values := valuesR scores in
  match values with
  | [] => mkBalanceResult 0 []
  | _ :: _ =>
      let mean := meanR values in
      let stdDev := stdDevR values in
      let balance := Z.max 0 (js_round ((1 - stdDev / 4.5) * 100)) in
      let warnings := map low_score_warning (filter is_lowR scores) in
      mkBalanceResult balance
        (if Rltb 2.5 stdDev && Rltb 0 mean then warnings ++ [imbalance_warning] else warnings)
  end.

(** ** From reals back to integers *)

Lemma Rltb_IZR (a b : Z) : Rltb (IZR a) (IZR b) = (a <? b)%Z.
Proof.
  unfold Rltb. destruct (Rlt_dec (IZR a) (IZR b)) as [H|H]; zbool; try reflexivity.
  - apply lt_IZR in H. lia.
  - exfalso. apply H, IZR_lt. assumption.
Qed.

Lemma is_lowR_is_low (s : DimensionScore) : is_lowR s = is_low s.
Proof. unfold is_lowR, is_low. rewrite !Rltb_IZR. reflexivity. Qed.

Lemma valuesR_positive_values (scores : list DimensionScore) :
  valuesR scores = map IZR (positive_values scores).
Proof.
  unfold valuesR, positive_values.
  induction scores as [|s scores IH]; [reflexivity|]. simpl.
  rewrite Rltb_IZR. destruct (0 <? value s)%Z; simpl; rewrite IH; reflexivity.
Qed.

Lemma fold_left_Rplus_acc (l : list R) (a : R) :
  fold_left Rplus l a = a + fold_left Rplus l 0.
Proof.
  revert a. induction l as [|x l IH]; intros a; simpl; [ring|].
  rewrite (IH (a + x)), (IH (0 + x)). ring.
Qed.

Lemma sumR_cons (x : R) (l : list R) : sumR (x :: l) = x + sumR l.
Proof. unfold sumR; simpl. rewrite fold_left_Rplus_acc. ring. Qed.

Lemma sumR_IZR (l : list Z) : sumR (map IZR l) = IZR (sumZ l).
Proof.
  induction l as [|x l IH]; [reflexivity|].
  simpl map. rewrite sumR_cons, sumZ_cons, IH, plus_IZR. reflexivity.
Qed.

Lemma sumR_sq_dev (l : list Z) (m : R) :
  sumR (map (fun v => (v - m) ^ 2) (map IZR l))
  = IZR (sq_sum l) - 2 * m * IZR (sumZ l) + INR (List.length l) * (m * m).
Proof.
  unfold sq_sum. induction l as [|x l IH]; [simpl; rewrite sumZ_nil; unfold sumR; simpl; ring|].
  cbn [map List.length]. rewrite sumR_cons, IH, !sumZ_cons, S_INR, plus_IZR, plus_IZR, mult_IZR.
  ring.
Qed.

Lemma count_INR (l : list Z) : INR (List.length l) = IZR (count l).
Proof. unfold count. apply INR_IZR_INZ. Qed.

(** The standard deviation the source computes is [sqrt D / n]. *)
Lemma stdDevR_spread (l : list Z) :
  l <> [] -> stdDevR (map IZR l) = sqrt (IZR (spread l)) / IZR (count l).
Proof.
  intros Hne. pose proof (count_pos l Hne) as Hn. apply IZR_lt in Hn.
  unfold stdDevR, meanR. rewrite length_map, sumR_sq_dev, sumR_IZR, count_INR.
  replace ((IZR (sq_sum l) - 2 * (IZR (sumZ l) / IZR (count l)) * IZR (sumZ l) +
            IZR (count l) * (IZR (sumZ l) / IZR (count l) * (IZR (sumZ l) / IZR (count l))))
           / IZR (count l))
    with (IZR (spread l) / (IZR (count l) * IZR (count l)))
    by (unfold spread; rewrite minus_IZR, !mult_IZR; field; lra).
  rewrite sqrt_div_alt by nra. rewrite sqrt_square by lra. reflexivity.
Qed.

(** ** [Math.round] of the index *)

Lemma le_of_squares (s T : R) : 0 <= s -> 0 <= T -> 160000 * (s * s) <= T * T -> 400 * s <= T.
Proof. intros. nra. Qed.

Lemma lt_of_squares (s B : R) : 0 <= s -> (B < 0 \/ B * B < 160000 * (s * s)) -> B < 400 * s.
Proof. intros Hs [HB|HB]; nra. Qed.

(** [Math.round((1 - stdDev / 4.5) * 100)] is [100 - round_steps]. *)
Lemma js_round_balance (l : list Z) :
  l <> [] -> js_round ((1 - stdDevR (map IZR l) / 4.5) * 100) = (100 - round_steps l)%Z.
Proof.
  intros Hne. rewrite stdDevR_spread by assumption.
  pose proof (count_pos l Hne) as Hn. pose proof (round_steps_nonneg l) as Hk.
  pose proof (round_steps_upper l Hne) as Hup. pose proof (round_steps_lower l Hne) as Hlo.
  pose proof (spread_nonneg l) as HD.
  apply IZR_le in Hup. apply IZR_lt in Hn. apply IZR_le in Hk. apply IZR_le in HD.
  repeat rewrite ?mult_IZR, ?plus_IZR in Hup.
  assert (Hs : 0 <= sqrt (IZR (spread l))) by apply sqrt_pos.
  assert (Hss : IZR (spread l) = sqrt (IZR (spread l)) * sqrt (IZR (spread l)))
    by (symmetry; apply sqrt_sqrt; assumption).
  set (s := sqrt (IZR (spread l))) in *. set (N := IZR (count l)) in *.
  set (K := IZR (round_steps l)) in *.
  assert (H1 : 400 * s <= 9 * N * (2 * K + 1))
    by (apply le_of_squares; [assumption|nra|rewrite <- Hss; exact Hup]).
  assert (H2 : 9 * N * (2 * K - 1) < 400 * s).
  { apply lt_of_squares; [assumption|].
    destruct Hlo as [Hlo|Hlo]; apply IZR_lt in Hlo;
      repeat rewrite ?mult_IZR, ?minus_IZR in Hlo;
      [left|right; rewrite <- Hss]; exact Hlo. }
  unfold js_round. apply Zfloor_eq. rewrite minus_IZR. fold K.
  assert (Hq : s = s / N * N) by (field; lra).
  set (q := s / N) in *. split; nra.
Qed.

(** ** The memo, exactly *)

Lemma high_imbalance_R (l : list Z) :
  l <> [] -> Forall (fun v => (0 < v)%Z) l ->
  Rltb 2.5 (stdDevR (map IZR l)) && Rltb 0 (meanR (map IZR l)) = high_imbalance l.
Proof.
  intros Hne Hpos. rewrite stdDevR_spread by assumption.
  pose proof (count_pos l Hne) as Hn. pose proof (sumZ_pos l Hpos Hne) as HS.
  pose proof (spread_nonneg l) as HD.
  unfold meanR, high_imbalance. rewrite length_map, sumR_IZR, count_INR.
  assert (Hm : Rltb 0 (IZR (sumZ l) / IZR (count l)) = true).
  { unfold Rltb. destruct (Rlt_dec _ _) as [|Hf]; [reflexivity|].
    exfalso. apply Hf. apply Rdiv_lt_0_compat; apply IZR_lt; assumption. }
  rewrite Hm. destruct (Z.ltb_spec 0 (sumZ l)); [|lia].
  apply IZR_lt in Hn. apply IZR_le in HD.
  assert (Hs : 0 <= sqrt (IZR (spread l))) by apply sqrt_pos.
  assert (Hss : sqrt (IZR (spread l)) * sqrt (IZR (spread l)) = IZR (spread l))
    by (apply sqrt_sqrt; assumption).
  unfold Rltb. destruct (Rlt_dec _ _) as [Hr|Hr]; zbool; try reflexivity; exfalso.
  - apply IZR_le in H0. rewrite !mult_IZR in H0.
    set (s := sqrt (IZR (spread l))) in *. set (N := IZR (count l)) in *.
    assert (Hq : s = s / N * N) by (field; lra). set (q := s / N) in *.
    assert (2.5 * N < s) by nra. nra.
  - apply Hr. apply IZR_lt in H0. rewrite !mult_IZR in H0.
    set (s := sqrt (IZR (spread l))) in *. set (N := IZR (count l)) in *.
    assert (Hq : s = s / N * N) by (field; lra). set (q := s / N) in *.
    apply Rnot_le_lt. intros Hle. assert (s <= 2.5 * N) by nra. nra.
Qed.

(** The balance index, as the source computes it from the standard
    deviation of the set scores. *)
Lemma balanceIndex_stdDevR (scores : list DimensionScore) :
  valuesR scores <> [] ->
  balanceIndex (computeBalance scores) = Z.max 0 (js_round ((1 - stdDevR (valuesR scores) / 4.5) * 100)).
Proof.
  intros Hne. rewrite BalanceTheorems.balanceIndex_computeBalance. rewrite valuesR_positive_values in *.
  destruct (positive_values scores) as [|v vs]; [contradiction|].
  rewrite js_round_balance by discriminate. reflexivity.
Qed.

(** C3: The balance index is an inverse of the standard deviation, as the
    specification says: of two slider lists with set scores, the one whose
    set scores spread more never has the higher index, and a standard
    deviation of 4.5 or more gives index 0. *)
Theorem balanceIndex_antitone :
  (forall s1 s2 : list DimensionScore,
     valuesR s1 <> [] -> valuesR s2 <> [] ->
     stdDevR (valuesR s1) <= stdDevR (valuesR s2) ->
     (balanceIndex (computeBalance s2) <= balanceIndex (computeBalance s1))%Z) /\
  (forall s : list DimensionScore,
     valuesR s <> [] -> 4.5 <= stdDevR (valuesR s) -> balanceIndex (computeBalance s) = 0%Z).
Proof.
  split.
  - intros s1 s2 H1 H2 Hle. rewrite !balanceIndex_stdDevR by assumption.
    apply Z.max_le_compat_l. unfold js_round. apply Zfloor_le. lra.
  - intros s Hne Hge. rewrite balanceIndex_stdDevR by assumption.
    apply Z.max_l. unfold js_round.
    assert (Hlt : (1 - stdDevR (valuesR s) / 4.5) * 100 + / 2 < IZR 1) by lra.
    pose proof (Zfloor_bound ((1 - stdDevR (valuesR s) / 4.5) * 100 + / 2)) as [Hb _].
    assert (Hz : (Zfloor ((1 - stdDevR (valuesR s) / 4.5) * 100 + / 2) < 1)%Z)
      by (apply lt_IZR; lra).
    lia.
Qed.

(** C1: The executable integer model of the balance memo computes exactly
    the source's formula over the reals ([Math.sqrt], [Math.round], the
    division by 4.5), on every list of integer-valued sliders. *)
Theorem computeBalanceR_exact (scores : list DimensionScore) :
  computeBalanceR scores = computeBalance scores.
Proof.
  unfold computeBalanceR, computeBalance. cbv zeta.
  rewrite valuesR_positive_values, (filter_ext is_lowR is_low is_lowR_is_low).
  pose proof (positive_values_pos scores) as Hpos.
  destruct (positive_values scores) as [|v vs]; [reflexivity|].
  cbn [map]. change (IZR v :: map IZR vs) with (map IZR (v :: vs)).
  rewrite js_round_balance, high_imbalance_R by (discriminate || assumption).
  reflexivity.
Qed.


(** ** Witness *)

Lemma balanceIndex_antitone_witness :
  (balanceIndex (computeBalance [mkDimensionScore "AI" 8 10; mkDimensionScore "UX" 3 10])
     <= balanceIndex (computeBalance [mkDimensionScore "AI" 8 10; mkDimensionScore "UX" 3 10]))%Z.
Proof.
  destruct balanceIndex_antitone as [H _].
  assert (Hne : valuesR [mkDimensionScore "AI" 8 10; mkDimensionScore "UX" 3 10] <> []).
  { rewrite valuesR_positive_values. simpl. discriminate. }
  exact (H _ _ Hne Hne (Rle_refl _)).
Defined.

End BalanceR.
