(* ===== verification/Advice.v ===== *)
(** * Advice: the advice engine of src/services/geminiService.ts

    [getDesignAdvice] (lines 154-208) maps the five sliders to a
    [Suggestion]: a strategy classification chosen by an ordered chain of
    threshold rules, up to two improvement suggestions for the lowest
    scores below 5, and a balance warning when the spread of the scores
    reaches 5.  [getLowScoreSuggestion] (lines 131-146) is the table of
    canned advice per dimension.  The [await] on a timer that precedes the
    computation is the asynchronous boundary modelled in [App]; here the
    function is the pure computation after it.

    JavaScript numbers: the sliders hold integers ([Z]); the average
    [values.reduce(...) / values.length] is a rational ([Q]), or NaN for an
    empty list ([None]: every comparison with NaN is false);
    [Math.max(...values)] and [Math.min(...values)] are [None] (that is
    [-Infinity] and [Infinity]) on an empty list, where [max - min >= 5] is
    false.  [Array.prototype.sort] with the comparator [a.value - b.value]
    is stable (ECMAScript 2019); it is modelled by a stable insertion sort
    and [sort_by_value_unique] shows that any stable sort returns the same
    list. *)
From Stdlib Require Import ZArith QArith List String Lia Permutation Sorted.
From S2P Require Import Prelude Types Dimensions.
Import ListNotations.

Module Advice.
Local Open Scope Z_scope.

(** ** Numbers *)

(** [a < b] on rationals. *)
Definition Qltb (a b : Q) : bool := negb (Qle_bool b a).

(** [values.reduce((a, b) => a + b, 0) / values.length]; [None] is NaN. *)
Definition js_avg (values : list Z) : option Q :=
  match values with
  | [] => None
  | _ :: _ => Some (inject_Z (sumZ values) / inject_Z (Z.of_nat (List.length values)))%Q
  end.

(** [avg < bound]: false when [avg] is NaN. *)
Definition avg_lt (avg : option Q) (bound : Q) : bool :=
  match avg with Some a => Qltb a bound | None => false end.

(** [Math.max(...values)]; [None] is [-Infinity]. *)
Definition js_max (values : list Z) : option Z :=
  match values with [] => None | v :: vs => Some (fold_left Z.max vs v) end.

(** [Math.min(...values)]; [None] is [Infinity]. *)
Definition js_min (values : list Z) : option Z :=
  match values with [] => None | v :: vs => Some (fold_left Z.min vs v) end.

(** A template literal [`${x}`] of a value that may be [undefined]. *)
Definition js_template (o : option string) : string :=
  match o with Some s => s | None => "undefined" end.

(** ** Lookups *)

(** [const getScore = (subject) =>
      scores.find(s => s.subject === subject)?.value ?? 0]. *)
Definition getScore (scores : list DimensionScore) (subj : string) : Z :=
  (option_map value (find (fun s => String.eqb (subject s) subj) scores) ?? 0)%radar.

(** [getLowScoreSuggestion] (lines 131-146). *)
Definition getLowScoreSuggestion (dimension : string) : string :=
  if String.eqb dimension label_business then
    "商業模式存在不確定性。建議進行市場競爭分析與使用者付費意願調查，以驗證價值主張並找到可行的獲利模式。"
  else if String.eqb dimension label_tech then
    "目前的技術方案可能面臨挑戰。建議進行技術驗證（PoC），評估不同技術棧的優劣，並考慮分階段實施以降低風險。"
  else if String.eqb dimension label_user then
    "產品未能有效解決使用者核心痛點。建議立即進行使用者訪談和可用性測試，從真實回饋中發掘高價值需求。"
  else if String.eqb dimension label_zeitgeist then
    "產品與當前市場趨勢脫節。建議研究最新的設計風格、互動模式和消費者行為變化，將現代元素融入產品中。"
  else if String.eqb dimension label_ai then
    "尚未充分利用 AI 的潛力。建議舉辦腦力激盪會議，探討 AI 如何在提升效率、個人化體驗或創造新功能方面帶來價值。"
  else
    String.append "此維度的分數過低，建議投入資源進行研究，找到提升 "
      (String.append dimension " 的可行方法。").

(** ** Classification (lines 164-184) *)

Definition summary_innovative : string :=
  "專案在 AI、使用者價值與技術上具備強大基礎，潛力巨大。建議採取創新型策略，大膽探索 AI 驅動的顛覆性功能，旨在定義市場新標準，建立難以超越的競爭壁壘。".
Definition summary_defensive : string :=
  "專案擁有穩固的商業和技術基礎，但在使用者體驗和創新方面相對保守。建議採取防禦型策略，專注於鞏固核心市場，優化現有流程，同時警惕新興競爭者的顛覆式創新。".
Definition summary_exploratory : string :=
  "專案各維度分數普遍偏低，顯示概念尚處於早期階段，方向不明確。建議立即暫停大規模開發，轉向探索型研究，透過原型測試和市場驗證來找到真正有價值的問題。".
Definition summary_incremental : string :=
  "專案各維度發展均衡，整體狀況穩健。建議採取漸進型策略，以數據驅動的方式持續進行小步快跑的優化，穩步提升使用者滿意度和商業表現，實現長期可持續增長。".

(** The [if / else if] chain choosing [solutionType] and
    [strategicSummary]. *)
Definition classify (scores : list DimensionScore) : SolutionType * string :=
  let avg := js_avg (map value scores) in
  let tech := getScore scores label_tech in
  let user := getScore scores label_user in
  let ai := getScore scores label_ai in
  let business := getScore scores label_business in
  if (7 <? ai) && (6 <? user) && (6 <? tech) then (Innovative, summary_innovative)
  else if (7 <? business) && (7 <? tech) && avg_lt avg (13 # 2) then (Defensive, summary_defensive)
  else if avg_lt avg (9 # 2) then (Exploratory, summary_exploratory)
  else (Incremental, summary_incremental).

(** ** Improvement suggestions (lines 186-193) *)

(** Insert [s] before the first element whose value is not smaller. *)
Fixpoint insert_by_value (s : DimensionScore) (l : list DimensionScore) : list DimensionScore :=
  match l with
  | [] => [s]
  | t :: l' => if value s <=? value t then s :: t :: l' else t :: insert_by_value s l'
  end.

(** [.sort((a, b) => a.value - b.value)]: a stable sort by value. *)
Fixpoint sort_by_value (l : list DimensionScore) : list DimensionScore :=
  match l with
  | [] => []
  | s :: l' => insert_by_value s (sort_by_value l')
  end.

(** The scores the suggestions are about:
    [scores.filter(s => s.value < 5).sort(...).slice(0, 2)]. *)
Definition critical_scores (scores : list DimensionScore) : list DimensionScore :=
  firstn 2 (sort_by_value (filter (fun s => value s <? 5) scores)).

(** [.map(s => ({ dimension: s.subject, suggestion: getLowScoreSuggestion(s.subject) }))]. *)
Definition improvementSuggestions_of (scores : list DimensionScore) : list Improvement.t :=
  map (fun s => {| Improvement.dimension := subject s;
                   Improvement.suggestion := getLowScoreSuggestion (subject s) |})
      (critical_scores scores).

(** ** Balance warning (lines 195-200) *)

Definition balance_warning_text (highest lowest : option string) : string :=
  String.append "維度之間存在嚴重失衡（例如 "
  (String.append (js_template highest)
  (String.append " 與 "
  (String.append (js_template lowest)
     "）。這可能導致資源錯配或策略衝突。建議優先補強最弱的環節，以確保專案的長期健康發展。"))).

Definition balanceWarning_of (scores : list DimensionScore) : option string :=
  let values := map value scores in
  match js_max values, js_min values with
  | Some mx, Some mn =>
      if 5 <=? mx - mn then
        let highest := option_map subject (find (fun s => value s =? mx) scores) in
        let lowest := option_map subject (find (fun s => value s =? mn) scores) in
        Some (balance_warning_text highest lowest)
      else None
  | _, _ => None
  end.

(** ** [getDesignAdvice] *)

Definition getDesignAdvice (scores : list DimensionScore) : Suggestion :=
  let '(solutionType, strategicSummary) := classify scores in
  {| solutionType := solutionType;
     strategicSummary := strategicSummary;
     improvementSuggestions := improvementSuggestions_of scores;
     balanceWarning := balanceWarning_of scores |}.

(** ** The stable sort *)

(** The order of the comparator [a.value - b.value]. *)
Definition le_value (a b : DimensionScore) : Prop := value a <= value b.

(** The scores of one value, in their order. *)
Definition with_value (v : Z) (l : list DimensionScore) : list DimensionScore :=
  filter (fun s => value s =? v) l.

Lemma insert_by_value_perm (s : DimensionScore) (l : list DimensionScore) :
  Permutation (s :: l) (insert_by_value s l).
Proof.
  induction l as [|t l IH]; simpl; [reflexivity|].
  destruct (value s <=? value t); [reflexivity|].
  rewrite perm_swap. constructor. exact IH.
Qed.

Lemma sort_by_value_perm (l : list DimensionScore) : Permutation l (sort_by_value l).
Proof.
  induction l as [|s l IH]; simpl; [reflexivity|].
  rewrite <- insert_by_value_perm. constructor. exact IH.
Qed.

Lemma insert_by_value_sorted (s : DimensionScore) (l : list DimensionScore) :
  StronglySorted le_value l -> StronglySorted le_value (insert_by_value s l).
Proof.
  induction 1 as [|t l Hl IH Ht]; simpl; [repeat constructor|].
  unfold le_value in *. destruct (Z.leb_spec (value s) (value t)) as [Hst|Hst].
  - constructor; [constructor; assumption|].
    constructor; [assumption|]. rewrite Forall_forall in Ht |- *.
    intros u Hu. specialize (Ht u Hu). lia.
  - constructor; [assumption|]. rewrite Forall_forall in Ht |- *.
    intros u Hu. apply (Permutation_in _ (Permutation_sym (insert_by_value_perm s l))) in Hu.
    destruct Hu as [<-|Hu]; [lia|auto].
Qed.

Lemma sort_by_value_sorted (l : list DimensionScore) : StronglySorted le_value (sort_by_value l).
Proof. induction l; simpl; [constructor|apply insert_by_value_sorted; assumption]. Qed.

Lemma with_value_insert (v : Z) (s : DimensionScore) (l : list DimensionScore) :
  with_value v (insert_by_value s l) = with_value v (s :: l).
Proof.
  unfold with_value. induction l as [|t l IH]; simpl; [reflexivity|].
  destruct (Z.leb_spec (value s) (value t)); [reflexivity|]. simpl. rewrite IH. simpl.
  destruct (Z.eqb_spec (value s) v), (Z.eqb_spec (value t) v); try reflexivity. lia.
Qed.

(** The sort is stable: the scores of each value keep their order. *)
Lemma sort_by_value_stable (v : Z) (l : list DimensionScore) :
  with_value v (sort_by_value l) = with_value v l.
Proof.
  induction l as [|s l IH]; [reflexivity|]. simpl sort_by_value.
  rewrite with_value_insert. unfold with_value in *. simpl. rewrite IH. reflexivity.
Qed.


Lemma with_value_cons (v : Z) (s : DimensionScore) (l : list DimensionScore) :
  with_value v (s :: l) = if value s =? v then s :: with_value v l else with_value v l.
Proof. reflexivity. Qed.

Lemma In_with_value (v : Z) (s : DimensionScore) (l : list DimensionScore) :
  In s (with_value v l) <-> In s l /\ value s = v.
Proof. unfold with_value. rewrite filter_In, Z.eqb_eq. reflexivity. Qed.

(** The head of a sorted list is at most every element. *)
Lemma sorted_head_le (a b : DimensionScore) (l : list DimensionScore) :
  StronglySorted le_value (a :: l) -> In b (a :: l) -> value a <= value b.
Proof.
  intros Hs [<-|Hb]; [lia|]. apply StronglySorted_inv in Hs as [_ Hf].
  rewrite Forall_forall in Hf. exact (Hf b Hb).
Qed.

(** Two sorted lists with the same scores of each value, in the same
    order, are equal. *)
Lemma sorted_stable_eq (l1 l2 : list DimensionScore) :
  StronglySorted le_value l1 -> StronglySorted le_value l2 ->
  (forall v, with_value v l1 = with_value v l2) -> l1 = l2.
Proof.
  revert l2. induction l1 as [|a r1 IH]; intros [|b r2] H1 H2 Hv; try reflexivity.
  - specialize (Hv (value b)). rewrite with_value_cons, Z.eqb_refl in Hv. discriminate.
  - specialize (Hv (value a)). rewrite with_value_cons, Z.eqb_refl in Hv. discriminate.
  - assert (Ha2 : In a (b :: r2)).
    { apply (In_with_value (value a)). rewrite <- Hv, with_value_cons, Z.eqb_refl. left. reflexivity. }
    assert (Hb1 : In b (a :: r1)).
    { apply (In_with_value (value b)). rewrite Hv, with_value_cons, Z.eqb_refl. left. reflexivity. }
    pose proof (sorted_head_le _ _ _ H1 Hb1). pose proof (sorted_head_le _ _ _ H2 Ha2).
    assert (Hab : value a = value b) by lia.
    pose proof (Hv (value a)) as Hw. rewrite !with_value_cons, Hab, Z.eqb_refl in Hw.
    cbv iota in Hw. injection Hw as <- _.
    f_equal. apply IH; [eapply StronglySorted_inv; eassumption|eapply StronglySorted_inv; eassumption|].
    intros v. specialize (Hv v). rewrite !with_value_cons in Hv.
    destruct (value a =? v); [injection Hv as Hv|]; exact Hv.
Qed.

(** C12: Any stable sort by value returns [sort_by_value]: a sorted list
    that keeps the order of the scores of each value is the insertion
    sort's result, so the model of [Array.prototype.sort] does not depend
    on the engine's algorithm. *)
Theorem sort_by_value_unique (l l' : list DimensionScore) :
  StronglySorted le_value l' -> (forall v, with_value v l' = with_value v l) ->
  l' = sort_by_value l.
Proof.
  intros Hs Hv. apply sorted_stable_eq; [assumption|apply sort_by_value_sorted|].
  intros v. rewrite sort_by_value_stable. apply Hv.
Qed.

(** ** Numbers and lookups *)

Lemma Qltb_div (s : Z) (n : positive) (num : Z) (den : positive) :
  Qltb (inject_Z s / inject_Z (Zpos n)) (num # den) = (s * Zpos den <? num * Zpos n).
Proof.
  unfold Qltb, Qle_bool, Qdiv, Qinv, Qmult, inject_Z. simpl.
  rewrite Pos.mul_1_l, Z.mul_1_r. zbool; reflexivity || lia.
Qed.

(** [avg < num / den] is an integer comparison of the sum. *)
Lemma avg_lt_js_avg (l : list Z) (num : Z) (den : positive) :
  l <> [] ->
  avg_lt (js_avg l) (num # den) = (sumZ l * Zpos den <? num * Z.of_nat (List.length l)).
Proof.
  destruct l as [|v l]; [congruence|]. intros _. cbn [js_avg avg_lt List.length].
  change (Z.of_nat (S (List.length l))) with (Zpos (Pos.of_succ_nat (List.length l))).
  apply Qltb_div.
Qed.

Lemma fold_left_max_spec (l : list Z) (v : Z) :
  In (fold_left Z.max l v) (v :: l) /\ forall x, In x (v :: l) -> x <= fold_left Z.max l v.
Proof.
  revert v. induction l as [|y l IH]; intros v; simpl.
  - split; [left; reflexivity|intros x [<-|[]]; lia].
  - destruct (IH (Z.max v y)) as [Hin Hle]. split.
    + destruct Hin as [Hm|Hin]; [|right; right; exact Hin].
      rewrite <- Hm. destruct (Z.max_spec v y) as [[_ ->]|[_ ->]]; auto.
    + pose proof (Hle _ (or_introl eq_refl)).
      intros x [<-|[<-|Hx]]; [lia|lia|]. apply Hle. right. exact Hx.
Qed.

Lemma fold_left_min_spec (l : list Z) (v : Z) :
  In (fold_left Z.min l v) (v :: l) /\ forall x, In x (v :: l) -> fold_left Z.min l v <= x.
Proof.
  revert v. induction l as [|y l IH]; intros v; simpl.
  - split; [left; reflexivity|intros x [<-|[]]; lia].
  - destruct (IH (Z.min v y)) as [Hin Hle]. split.
    + destruct Hin as [Hm|Hin]; [|right; right; exact Hin].
      rewrite <- Hm. destruct (Z.min_spec v y) as [[_ ->]|[_ ->]]; auto.
    + pose proof (Hle _ (or_introl eq_refl)).
      intros x [<-|[<-|Hx]]; [lia|lia|]. apply Hle. right. exact Hx.
Qed.

(** [Math.max(...values)] is the largest value. *)
Lemma js_max_spec (l : list Z) (m : Z) :
  js_max l = Some m -> In m l /\ forall x, In x l -> x <= m.
Proof. destruct l as [|v l]; [discriminate|]. intros [= <-]. apply fold_left_max_spec. Qed.

Lemma js_min_spec (l : list Z) (m : Z) :
  js_min l = Some m -> In m l /\ forall x, In x l -> m <= x.
Proof. destruct l as [|v l]; [discriminate|]. intros [= <-]. apply fold_left_min_spec. Qed.

Lemma js_max_some (l : list Z) : l <> [] -> exists m, js_max l = Some m.
Proof. destruct l; [congruence|eauto]. Qed.

Lemma js_min_some (l : list Z) : l <> [] -> exists m, js_min l = Some m.
Proof. destruct l; [congruence|eauto]. Qed.

End Advice.

(** ** The contract of the advice engine *)

Module AdviceSpec.
Import Advice.
Local Open Scope Z_scope.

(** The rule table of the classification for five sliders, with the
    average of the five values written as an integer comparison of their
    sum ([avg < 6.5] is [2 * sum < 65]; [avg < 4.5] is [2 * sum < 45]). *)
Definition profile_sum (p : Profile) : Z :=
  p_business p + p_tech p + p_user p + p_zeitgeist p + p_ai p.

Definition spec_solutionType (p : Profile) : SolutionType :=
  if (7 <? p_ai p) && (6 <? p_user p) && (6 <? p_tech p) then Innovative
  else if (7 <? p_business p) && (7 <? p_tech p) && (2 * profile_sum p <? 65) then Defensive
  else if 2 * profile_sum p <? 45 then Exploratory
  else Incremental.

Lemma getDesignAdvice_fields (scores : list DimensionScore) :
  solutionType (getDesignAdvice scores) = fst (classify scores) /\
  strategicSummary (getDesignAdvice scores) = snd (classify scores) /\
  improvementSuggestions (getDesignAdvice scores) = improvementSuggestions_of scores /\
  balanceWarning (getDesignAdvice scores) = balanceWarning_of scores.
Proof. unfold getDesignAdvice. destruct (classify scores); repeat split. Qed.

Lemma In_critical_scores (scores : list DimensionScore) (s : DimensionScore) :
  In s (critical_scores scores) -> In s scores /\ value s < 5.
Proof.
  unfold critical_scores. intros H. apply in_firstn in H.
  apply (Permutation_in _ (Permutation_sym (sort_by_value_perm _))) in H.
  apply filter_In in H as [H Hv]. split; [exact H|]. apply Z.ltb_lt, Hv.
Qed.

(** C4: On the five sliders, [getDesignAdvice] classifies by the rule table
    of the specification: the first matching rule of Innovative (ai > 7,
    user > 6, tech > 6), Defensive (business > 7, tech > 7, avg < 6.5),
    Exploratory (avg < 4.5), else Incremental. *)
Theorem getDesignAdvice_solutionType (p : Profile) :
  solutionType (getDesignAdvice (profile_scores p)) = spec_solutionType p.
Proof.
  destruct (getDesignAdvice_fields (profile_scores p)) as [-> _].
  unfold classify, spec_solutionType. cbv zeta.
  rewrite profile_scores_values, !avg_lt_js_avg by discriminate.
  change (getScore (profile_scores p) label_tech) with (p_tech p).
  change (getScore (profile_scores p) label_user) with (p_user p).
  change (getScore (profile_scores p) label_ai) with (p_ai p).
  change (getScore (profile_scores p) label_business) with (p_business p).
  assert (Hs : sumZ [p_business p; p_tech p; p_user p; p_zeitgeist p; p_ai p] * 2
               = 2 * profile_sum p)
    by (unfold profile_sum; rewrite !sumZ_cons, sumZ_nil; ring).
  rewrite Hs. change (Z.of_nat (List.length [p_business p; p_tech p; p_user p; p_zeitgeist p; p_ai p])) with 5.
  change (13 * 5) with 65. change (9 * 5) with 45. destruct_ifs; reflexivity.
Qed.

(** C10: There are at most two improvement suggestions, each for a score
    below 5 and carrying that dimension's canned advice. *)
Theorem improvementSuggestions_low (scores : list DimensionScore) :
  (List.length (improvementSuggestions (getDesignAdvice scores)) <= 2)%nat /\
  forall i, In i (improvementSuggestions (getDesignAdvice scores)) ->
    exists s, In s scores /\ value s < 5 /\
      i = {| Improvement.dimension := subject s;
             Improvement.suggestion := getLowScoreSuggestion (subject s) |}.
Proof.
  destruct (getDesignAdvice_fields scores) as (_ & _ & -> & _).
  unfold improvementSuggestions_of. rewrite length_map. split.
  - apply firstn_le_length.
  - intros i Hi. apply in_map_iff in Hi as (s & <- & Hs).
    apply In_critical_scores in Hs as [Hs Hv]. eauto.
Qed.

(** C11: The suggested scores are the most critical ones: in ascending order
    of value, and no score below 5 left out is lower than one taken. *)
Theorem critical_scores_lowest (scores : list DimensionScore) :
  StronglySorted le_value (critical_scores scores) /\
  forall s t, In s (critical_scores scores) -> In t scores -> value t < 5 ->
    ~ In t (critical_scores scores) -> value s <= value t.
Proof.
  unfold critical_scores.
  set (L := sort_by_value (filter (fun s => value s <? 5) scores)).
  pose proof (sort_by_value_sorted (filter (fun s => value s <? 5) scores)) as HL.
  fold L in HL. rewrite <- (firstn_skipn 2 L) in HL.
  apply StronglySorted_app_inv in HL as (H1 & _ & H12). split; [exact H1|].
  intros s t Hs Ht Hv Hn.
  assert (HtL : In t L).
  { apply (Permutation_in _ (sort_by_value_perm _)), filter_In. split; [exact Ht|apply Z.ltb_lt, Hv]. }
  destruct (in_firstn_skipn 2 t L HtL) as [|Hskip]; [contradiction|]. exact (H12 s t Hs Hskip).
Qed.

(** C18: There are as many improvement suggestions as scores below 5, up
    to two. *)
Theorem improvementSuggestions_length (scores : list DimensionScore) :
  List.length (improvementSuggestions (getDesignAdvice scores))
  = Nat.min 2 (List.length (filter (fun s => value s <? 5) scores)).
Proof.
  destruct (getDesignAdvice_fields scores) as (_ & _ & -> & _).
  unfold improvementSuggestions_of, critical_scores.
  rewrite length_map, length_firstn, <- (Permutation_length (sort_by_value_perm _)). reflexivity.
Qed.

Lemma In_map_value (scores : list DimensionScore) (v : Z) :
  In v (map value scores) -> exists s, In s scores /\ value s = v.
Proof. rewrite in_map_iff. intros (s & <- & Hs). eauto. Qed.

Lemma find_value_some (scores : list DimensionScore) (v : Z) :
  In v (map value scores) ->
  exists s, find (fun s => value s =? v) scores = Some s /\ In s scores /\ value s = v.
Proof.
  intros Hv. destruct (find (fun s => value s =? v) scores) as [s|] eqn:E.
  - exists s. apply find_some in E as [Hs Hsv]. apply Z.eqb_eq in Hsv. auto.
  - apply In_map_value in Hv as (s & Hs & Hsv).
    pose proof (find_none _ _ E s Hs) as Hf. cbv beta in Hf. rewrite Hsv, Z.eqb_refl in Hf. discriminate.
Qed.

(** C9: The balance warning is present exactly when two scores differ by 5
    or more, and it then names a highest and a lowest scoring dimension. *)
Theorem balanceWarning_iff (scores : list DimensionScore) :
  balanceWarning (getDesignAdvice scores) <> None <->
  exists s t, In s scores /\ In t scores /\ 5 <= value s - value t.
Proof.
  destruct (getDesignAdvice_fields scores) as (_ & _ & _ & ->).
  unfold balanceWarning_of. cbv zeta. split.
  - destruct (js_max (map value scores)) as [mx|] eqn:Emx; [|congruence].
    destruct (js_min (map value scores)) as [mn|] eqn:Emn; [|congruence].
    destruct (Z.leb_spec 5 (mx - mn)); [|congruence]. intros _.
    apply js_max_spec in Emx as [Hmx _]. apply js_min_spec in Emn as [Hmn _].
    apply In_map_value in Hmx as (s & Hs & <-). apply In_map_value in Hmn as (t & Ht & <-).
    eauto.
  - intros (s & t & Hs & Ht & Hst).
    assert (Hne : map value scores <> []) by (destruct scores; [destruct Hs|discriminate]).
    destruct (js_max_some _ Hne) as [mx Emx]. destruct (js_min_some _ Hne) as [mn Emn].
    rewrite Emx, Emn.
    apply js_max_spec in Emx as [_ Hmx]. apply js_min_spec in Emn as [_ Hmn].
    specialize (Hmx (value s) (in_map _ _ _ Hs)). specialize (Hmn (value t) (in_map _ _ _ Ht)).
    destruct (Z.leb_spec 5 (mx - mn)); [discriminate|lia].
Qed.

(** The worked examples of the specification: the sliders 9, 7, 6, 4, 3
    are classified Incremental, with suggestions for AI (3) then zeitgeist
    (4) and a warning naming business and AI; five 8s are Innovative. *)
Theorem getDesignAdvice_examples :
  getDesignAdvice (profile_scores (mkProfile 9 7 6 4 3)) =
    {| solutionType := Incremental; strategicSummary := summary_incremental;
       improvementSuggestions :=
         [{| Improvement.dimension := label_ai; Improvement.suggestion := getLowScoreSuggestion label_ai |};
          {| Improvement.dimension := label_zeitgeist;
             Improvement.suggestion := getLowScoreSuggestion label_zeitgeist |}];
       balanceWarning := Some (balance_warning_text (Some label_business) (Some label_ai)) |} /\
  solutionType (getDesignAdvice (profile_scores (mkProfile 8 8 8 8 8))) = Innovative.
Proof. split; vm_compute; reflexivity. Qed.

(** ** Witnesses *)

Definition sample_sorted : list DimensionScore :=
  [{| subject := label_ai; value := 3; fullMark := 10 |};
   {| subject := label_zeitgeist; value := 4; fullMark := 10 |};
   {| subject := label_user; value := 6; fullMark := 10 |};
   {| subject := label_tech; value := 7; fullMark := 10 |};
   {| subject := label_business; value := 9; fullMark := 10 |}].

Lemma sort_by_value_unique_witness :
  sample_sorted = sort_by_value (profile_scores (mkProfile 9 7 6 4 3)).
Proof.
  apply sort_by_value_unique.
  - repeat (apply SSorted_cons; [|repeat (apply Forall_cons; [unfold le_value; simpl; lia|]); apply Forall_nil]).
    apply SSorted_nil.
  - intros v. unfold with_value. cbn -[Z.eqb].
    destruct (Z.eqb_spec 3 v), (Z.eqb_spec 4 v), (Z.eqb_spec 6 v), (Z.eqb_spec 7 v),
      (Z.eqb_spec 9 v); try lia; reflexivity.
Defined.

End AdviceSpec.
