(* ===== verification/Profiles.v ===== *)
(** * Profiles: the URL analysis of src/services/geminiService.ts

    [analyzeUrlAndScore] (lines 109-127) is a mock analysis: after a
    simulated delay it rejects a URL that is empty or does not start with
    ["http"], and otherwise returns one of four canned [AnalysisResult]s
    (lines 5-101), chosen by case-insensitive regular expressions tried in
    a fixed order.  [toDimensionScores] is the code of [handleUrlAnalysis]
    (src/App.tsx, lines 62-69) that turns a result into slider values.

    Strings are [String.string], that is the UTF-8 bytes of the JavaScript
    string.  A test [/(w1|...|wn)/i.test(url)] with lowercase ASCII words
    [wi] holds exactly when some [wi] occurs in the URL with its ASCII
    letters in either case: JavaScript's case-insensitive matching never
    maps a non-ASCII character to an ASCII one, and in UTF-8 an ASCII byte
    only ever encodes that ASCII character.  So the test is modelled as a
    substring search in the URL with its ASCII letters lowercased. *)
From Stdlib Require Import ZArith List String Ascii Bool Lia.
From S2P Require Import Prelude Types Dimensions Advice.
Import ListNotations.

Module Profiles.
Local Open Scope Z_scope.
Local Open Scope string_scope.
Local Open Scope bool_scope.

Definition ai_score (d : string) (v : Z) : AIScore.t :=
  {| AIScore.dimension := d; AIScore.value := v |}.
Definition improvement (d s : string) : Improvement.t :=
  {| Improvement.dimension := d; Improvement.suggestion := s |}.

(** [const ECOMMERCE_PROFILE] (lines 5-28). *)
Definition ECOMMERCE_PROFILE : AnalysisResult := {|
  scores := [ai_score label_business 9; ai_score label_tech 7; ai_score label_user 6;
             ai_score label_zeitgeist 4; ai_score label_ai 3];
  suggestions := {|
    solutionType := Incremental;
    strategicSummary := "此電商平台商業模式成熟，技術架構穩定。然而，使用者體驗尚有提升空間，且未能跟上最新的社群商務趨勢與 AI 個人化浪潮。建議採取漸進式優化策略，優先整合 AI 推薦系統並強化社群互動功能。";
    improvementSuggestions := [
      improvement label_ai "引入基於使用者行為的 AI 商品推薦引擎，提升交叉銷售與向上銷售的轉換率。";
      improvement label_zeitgeist "結合直播購物、KOL 合作等社群電商模式，吸引年輕客群，創造新的流量入口。"];
    balanceWarning := Some "商業可行性遠高於創新相關維度（時代相關性、AI 整合潛力），長期可能面臨市場顛覆的風險。" |} |}.

(** [const SOCIAL_MEDIA_PROFILE] (lines 30-52). *)
Definition SOCIAL_MEDIA_PROFILE : AnalysisResult := {|
  scores := [ai_score label_business 4; ai_score label_tech 6; ai_score label_user 9;
             ai_score label_zeitgeist 8; ai_score label_ai 5];
  suggestions := {|
    solutionType := Exploratory;
    strategicSummary := "此社群平台擁有極高的使用者價值和社群黏著度，但商業變現模式不明確。建議採取探索型策略，在不損害使用者體驗的前提下，嘗試多元的商業模式，如付費內容、品牌合作或電商整合。";
    improvementSuggestions := [
      improvement label_business "啟動小規模的廣告或訂閱制實驗，測試市場接受度，並建立數據模型以評估對使用者留存的影響。";
      improvement label_ai "利用 AI 進行更精準的內容分發與垃圾訊息過濾，可進一步提升使用者體驗，為未來的廣告投放奠定基礎。"];
    balanceWarning := None |} |}.

(** [const SAAS_PROFILE] (lines 54-76). *)
Definition SAAS_PROFILE : AnalysisResult := {|
  scores := [ai_score label_business 6; ai_score label_tech 9; ai_score label_user 7;
             ai_score label_zeitgeist 5; ai_score label_ai 8];
  suggestions := {|
    solutionType := Innovative;
    strategicSummary := "此 SaaS 產品技術實力雄厚，AI 整合潛力巨大。建議採取創新型策略，將 AI 作為核心競爭力，開發智慧化、自動化的殺手級功能，從而在市場中建立技術壁壘，並以此為基礎優化定價與市場策略。";
    improvementSuggestions := [
      improvement label_zeitgeist "關注行業的最新工作流程變革，確保產品功能與新興的協作模式和遠端工作趨勢保持一致。";
      improvement label_business "重新評估定價策略，考慮推出基於 AI 功能使用量的進階方案，以更好地將技術優勢轉化為商業價值。"];
    balanceWarning := None |} |}.

(** [const DEFAULT_PROFILE] (lines 78-101). *)
Definition DEFAULT_PROFILE : AnalysisResult := {|
  scores := [ai_score label_business 7; ai_score label_tech 8; ai_score label_user 6;
             ai_score label_zeitgeist 5; ai_score label_ai 4];
  suggestions := {|
    solutionType := Incremental;
    strategicSummary := "此網站技術基礎穩固，商業模式清晰。目前使用者價值尚可，但與時代趨勢和AI整合的連結較弱。建議採取漸進式優化策略，強化創新元素的整合，逐步提升市場競爭力。";
    improvementSuggestions := [
      improvement label_ai "探索使用 AI 客服機器人來提升客戶服務效率，或利用 AI 進行個人化內容推薦，以增強使用者黏著度。";
      improvement label_zeitgeist "研究競爭對手和市場領導者的最新動態，分析當前設計趨勢，更新網站的視覺風格與互動模式。"];
    balanceWarning := Some "AI 整合潛力與技術可行性之間存在較大差距，可能導致技術資源未能充分發揮其潛在價值。" |} |}.

(** ** Case-insensitive regular expressions *)

(** ASCII [A-Z] to [a-z]; every other byte unchanged. *)
Definition ascii_lower (c : ascii) : ascii :=
  let n := nat_of_ascii c in
  if (65 <=? n)%nat && (n <=? 90)%nat then ascii_of_nat (n + 32) else c.

Fixpoint lower (s : string) : string :=
  match s with
  | EmptyString => EmptyString
  | String c s' => String (ascii_lower c) (lower s')
  end.

(** [w] occurs in [s]. *)
Fixpoint contains (w s : string) : bool :=
  String.prefix w s ||
  match s with
  | EmptyString => false
  | String _ s' => contains w s'
  end.

(** [/(w1|...|wn)/i.test(url)] for lowercase ASCII words [wi]. *)
Definition regex_test_ci (words : list string) (url : string) : bool :=
  existsb (fun w => contains w (lower url)) words.

Definition ecommerce_words : list string := ["shop"; "store"; "amazon"; "commerce"; "buy"].
Definition social_words : list string := ["social"; "facebook"; "twitter"; "community"; "forum"].
Definition saas_words : list string := ["saas"; "tech"; "blog"; "dev"; "dashboard"].

Definition invalid_url_message : string := "請輸入有效的網址。".

(** [analyzeUrlAndScore] after its [await]: the value its promise settles
    with. *)
Definition analyzeUrlAndScore (url : string) : Outcome AnalysisResult :=
  if String.eqb url "" || negb (String.prefix "http" url) then Rejected invalid_url_message
  else if regex_test_ci ecommerce_words url then Resolved ECOMMERCE_PROFILE
  else if regex_test_ci social_words url then Resolved SOCIAL_MEDIA_PROFILE
  else if regex_test_ci saas_words url then Resolved SAAS_PROFILE
  else Resolved DEFAULT_PROFILE.

(** ** From a result to the sliders (src/App.tsx, lines 62-69) *)

(** [DIMENSIONS.map(dim => { const foundScore = result.scores.find(s =>
    s.dimension === dim.label); return { subject: dim.label, value:
    foundScore ? foundScore.value : 5, fullMark: 10 }; })]. *)
Definition toDimensionScores (result : AnalysisResult) : list DimensionScore :=
  map (fun dim =>
         let foundScore := find (fun s => String.eqb (AIScore.dimension s) (label dim)) (scores result) in
         {| subject := label dim;
            value := match foundScore with Some s => AIScore.value s | None => 5 end;
            fullMark := 10 |})
      DIMENSIONS.

End Profiles.

Module ProfileTheorems.
Import Profiles.
Local Open Scope string_scope.
Local Open Scope bool_scope.

(** ** Substrings *)

Lemma prefix_spec (w s : string) : String.prefix w s = true <-> exists r, s = w ++ r.
Proof.
  revert w. induction s as [|d s IH]; intros [|c w]; simpl.
  - split; [intros _; exists ""; reflexivity|reflexivity].
  - split; [discriminate|intros [r Hr]; discriminate].
  - split; [intros _; exists (String d s); reflexivity|reflexivity].
  - destruct (ascii_dec c d) as [<-|Hcd].
    + rewrite IH. split; intros [r Hr]; exists r; [rewrite Hr; reflexivity|injection Hr as Hr; exact Hr].
    + split; [discriminate|intros [r Hr]; injection Hr as Hr; congruence].
Qed.

(** [contains w s] holds exactly when [w] occurs in [s]. *)
Lemma contains_spec (w s : string) :
  contains w s = true <-> exists pre suf, s = pre ++ w ++ suf.
Proof.
  induction s as [|c s IH].
  - cbn [contains]. rewrite orb_false_r, prefix_spec. split.
    + intros [r Hr]. exists "", r. exact Hr.
    + intros ([|c pre] & suf & Hs); [exists suf; exact Hs|discriminate].
  - cbn [contains]. rewrite orb_true_iff, prefix_spec, IH. split.
    + intros [[r Hr]|(pre & suf & Hs)]; [exists "", r; exact Hr|].
      exists (String c pre), suf. rewrite Hs. reflexivity.
    + intros ([|d pre] & suf & Hs); [left; exists suf; exact Hs|right].
      injection Hs as _ Hs. exists pre, suf. exact Hs.
Qed.

(** The case-insensitive test holds exactly when one of the words occurs
    in the lowercased URL. *)
Lemma regex_test_ci_spec (words : list string) (url : string) :
  regex_test_ci words url = true <->
  exists w, In w words /\ exists pre suf, lower url = pre ++ w ++ suf.
Proof.
  unfold regex_test_ci. rewrite existsb_exists.
  split; intros (w & Hw & H); exists w; split; try assumption; apply contains_spec; assumption.
Qed.

Definition occurs_in (words : list string) (url : string) : Prop :=
  exists w, In w words /\ exists pre suf, lower url = pre ++ w ++ suf.

Lemma regex_test_ci_false (words : list string) (url : string) :
  ~ occurs_in words url -> regex_test_ci words url = false.
Proof.
  intros H. destruct (regex_test_ci words url) eqn:E; [|reflexivity].
  exfalso. apply H, regex_test_ci_spec, E.
Qed.


(** ** Validation and selection *)

(** [url.startsWith('http')]. *)
Definition valid_url (url : string) : Prop := exists rest, url = "http" ++ rest.

(** [!url] adds nothing to the prefix test: the empty string has no
    prefix ["http"]. *)
Lemma url_guard (url : string) :
  String.eqb url "" || negb (String.prefix "http" url) = negb (String.prefix "http" url).
Proof. destruct url; reflexivity. Qed.

Lemma url_guard_valid (url : string) :
  valid_url url -> String.eqb url "" || negb (String.prefix "http" url) = false.
Proof. intros H. rewrite url_guard. apply prefix_spec in H. rewrite H. reflexivity. Qed.

(** C8: The analysis rejects a URL, always with the invalid-URL message,
    exactly when it does not start with ["http"] (the empty URL
    included). *)
Theorem analyzeUrl_rejects (url : string) (m : string) :
  analyzeUrlAndScore url = Rejected m <-> ~ valid_url url /\ m = invalid_url_message.
Proof.
  unfold analyzeUrlAndScore. rewrite url_guard. unfold valid_url. rewrite <- prefix_spec.
  destruct (String.prefix "http" url); simpl.
  - destruct_ifs; split; try discriminate; intros [H _]; contradiction H; reflexivity.
  - split; [intros [= <-]; split; [discriminate|reflexivity]|intros [_ ->]; reflexivity].
Qed.

(** C7: A valid URL gets the profile of the first pattern, in the order
    e-commerce, social, tech/SaaS, with a word of the pattern occurring
    in it in any letter case; the default profile when none occurs. *)
Theorem analyzeUrl_selects (url : string) :
  valid_url url ->
  (occurs_in ecommerce_words url -> analyzeUrlAndScore url = Resolved ECOMMERCE_PROFILE) /\
  (~ occurs_in ecommerce_words url -> occurs_in social_words url ->
     analyzeUrlAndScore url = Resolved SOCIAL_MEDIA_PROFILE) /\
  (~ occurs_in ecommerce_words url -> ~ occurs_in social_words url -> occurs_in saas_words url ->
     analyzeUrlAndScore url = Resolved SAAS_PROFILE) /\
  (~ occurs_in ecommerce_words url -> ~ occurs_in social_words url -> ~ occurs_in saas_words url ->
     analyzeUrlAndScore url = Resolved DEFAULT_PROFILE).
Proof.
  intros Hv. unfold analyzeUrlAndScore. rewrite (url_guard_valid url Hv). cbn [orb negb].
  repeat split; intros;
    repeat match goal with
           | H : occurs_in ?w url |- _ => apply regex_test_ci_spec in H; rewrite H
           | H : ~ occurs_in ?w url |- _ => apply regex_test_ci_false in H; rewrite H
           end; reflexivity.
Qed.

Lemma analyzeUrl_cases (url : string) (r : AnalysisResult) :
  analyzeUrlAndScore url = Resolved r ->
  r = ECOMMERCE_PROFILE \/ r = SOCIAL_MEDIA_PROFILE \/ r = SAAS_PROFILE \/ r = DEFAULT_PROFILE.
Proof. unfold analyzeUrlAndScore. destruct_ifs; intros [= <-]; tauto. Qed.

(** The selection reads the URL only through its lowercase form, once it
    has passed the case-sensitive scheme check. *)
Lemma analyzeUrl_case_insensitive (u1 u2 : string) :
  valid_url u1 -> valid_url u2 -> lower u1 = lower u2 ->
  analyzeUrlAndScore u1 = analyzeUrlAndScore u2.
Proof.
  intros H1 H2 Hl. unfold analyzeUrlAndScore, regex_test_ci.
  rewrite (url_guard_valid u1 H1), (url_guard_valid u2 H2), Hl. reflexivity.
Qed.

(** C19: Every result of the analysis fills the five sliders, in registry
    order, with values between 0 and 10. *)
Theorem analyzeUrl_result_sliders (url : string) (r : AnalysisResult) :
  analyzeUrlAndScore url = Resolved r ->
  exists p, toDimensionScores r = profile_scores p /\
            Forall (fun v => 0 <= v <= 10)%Z (map value (profile_scores p)).
Proof.
  intros H. apply analyzeUrl_cases in H as [-> | [-> | [-> | ->]]];
    [exists (mkProfile 9 7 6 4 3)|exists (mkProfile 4 6 9 8 5)
    |exists (mkProfile 6 9 7 5 8)|exists (mkProfile 7 8 6 5 4)];
    (split; [reflexivity|rewrite profile_scores_values; repeat (apply Forall_cons; [simpl; lia|]); apply Forall_nil]).
Qed.

(** The canned advice of the profiles is not what the advice engine
    computes for the profiles' own scores: for the social profile the
    engine classifies Incremental (the profile says Exploratory) and warns
    of imbalance (the profile does not); for the default profile the
    engine gives no balance warning (the profile has one); for the SaaS
    profile the engine suggests no improvement (the profile has two). *)
Theorem canned_advice_differs_from_engine :
  solutionType (suggestions SOCIAL_MEDIA_PROFILE) = Exploratory /\
  solutionType (Advice.getDesignAdvice (toDimensionScores SOCIAL_MEDIA_PROFILE)) = Incremental /\
  balanceWarning (suggestions SOCIAL_MEDIA_PROFILE) = None /\
  balanceWarning (Advice.getDesignAdvice (toDimensionScores SOCIAL_MEDIA_PROFILE)) <> None /\
  balanceWarning (suggestions DEFAULT_PROFILE) <> None /\
  balanceWarning (Advice.getDesignAdvice (toDimensionScores DEFAULT_PROFILE)) = None /\
  List.length (improvementSuggestions (suggestions SAAS_PROFILE)) = 2%nat /\
  improvementSuggestions (Advice.getDesignAdvice (toDimensionScores SAAS_PROFILE)) = [].
Proof. repeat split; vm_compute; congruence. Qed.

(** The worked examples of the specification: a shop URL gets the
    e-commerce profile (scores 9, 7, 6, 4, 3, Incremental); a string that
    does not start with "http" is rejected. *)
Theorem analyzeUrl_examples :
  analyzeUrlAndScore "https://shop.example.com" = Resolved ECOMMERCE_PROFILE /\
  map AIScore.value (scores ECOMMERCE_PROFILE) = [9; 7; 6; 4; 3]%Z /\
  solutionType (suggestions ECOMMERCE_PROFILE) = Incremental /\
  analyzeUrlAndScore "not-a-url" = Rejected invalid_url_message.
Proof. repeat split; vm_compute; reflexivity. Qed.

(** ** Witnesses *)

Definition shop_url : string := "https://shop.example.com".

Lemma shop_url_valid : valid_url shop_url.
Proof. exists "s://shop.example.com". reflexivity. Qed.

Lemma analyzeUrl_selects_witness :
  valid_url shop_url /\
  (occurs_in ecommerce_words shop_url -> analyzeUrlAndScore shop_url = Resolved ECOMMERCE_PROFILE).
Proof. split; [exists "s://shop.example.com"; reflexivity|]. apply (analyzeUrl_selects shop_url). exists "s://shop.example.com"; reflexivity. Defined.

Lemma analyzeUrl_result_sliders_witness :
  exists p, toDimensionScores ECOMMERCE_PROFILE = profile_scores p /\
            Forall (fun v => 0 <= v <= 10)%Z (map value (profile_scores p)).
Proof. apply (analyzeUrl_result_sliders shop_url). vm_compute. reflexivity. Defined.

End ProfileTheorems.
