(* ===== verification/Service.v ===== *)
(** * Service: what src/services/geminiService.ts promises to the page

    [App] calls the service through two asynchronous functions,
    [getDesignAdvice] and [analyzeUrlAndScore].  The class
    [StrategyService] states what the page relies on: the value each call
    settles with, and the one law the page's invariants need, that an
    analysis result carries scores between 0 and 10.  Both calls settle
    with an [Outcome]: the page handles a rejection of either in a
    [catch].  The theorems of [App]
    are proved for any instance; [geminiService] is the instance of the
    repository, which discharges the law from [Profiles]. *)
From Stdlib Require Import ZArith List String Lia.
From S2P Require Import Prelude Types Dimensions Advice Profiles.
Import ListNotations.

Class StrategyService := {
  (** [getDesignAdvice(scores)] settles with this outcome. *)
  advise : list DimensionScore -> Outcome Suggestion;
  (** [analyzeUrlAndScore(url)] settles with this outcome. *)
  analyze : string -> Outcome AnalysisResult;
  analyze_scores_range : forall url r,
    analyze url = Resolved r -> Forall (fun s => 0 <= AIScore.value s <= 10)%Z (scores r)
}.

Lemma profiles_scores_range (url : string) (r : AnalysisResult) :
  Profiles.analyzeUrlAndScore url = Resolved r ->
  Forall (fun s => 0 <= AIScore.value s <= 10)%Z (scores r).
Proof.
  intros H. apply ProfileTheorems.analyzeUrl_cases in H as [-> | [-> | [-> | ->]]];
    repeat (apply Forall_cons; [simpl; lia|]); apply Forall_nil.
Qed.

(** The service of the repository: [getDesignAdvice] computes its advice
    without a call that could fail, so it always resolves. *)
#[export] Instance geminiService : StrategyService := {|
  advise := fun scores => Resolved (Advice.getDesignAdvice scores);
  analyze := Profiles.analyzeUrlAndScore;
  analyze_scores_range := profiles_scores_range
|}.
