(* ===== verification/Chart.v ===== *)
(** * Chart: the radar chart of src/components/RadarChartComponent.tsx

    [RadarChartComponent] merges the sliders with the ideal profile row by
    row ([combinedData], lines 71-74), draws a dot per score
    ([CustomizedDot], lines 45-67, with the [KEY_METRICS] of line 43) and
    labels each axis ([CustomizedAxisTick], lines 11-40), splitting a label
    longer than 8 characters into two lines.  [radarChartComponent] is
    what the component hands to recharts (lines 76-108): the axis labels,
    the radius domain and each [<Radar>] with its props and the points its
    [dataKey] reads.  The drawing itself (recharts) is not modelled.

    A JavaScript string is a sequence of UTF-16 code units, and
    [length] and [substring] count those.  [utf16_units] decodes the UTF-8
    bytes of a [String.string] into its UTF-16 code units (a code point
    above U+FFFF becomes a surrogate pair), so that the tick's length test
    and its two [substring]s are computed as in the browser.  Well-formed
    UTF-8 is assumed: the bytes after a lead byte are taken as its
    continuation bytes. *)
From Stdlib Require Import ZArith List String Ascii Bool Lia.
From S2P Require Import Prelude Types Dimensions.
Import ListNotations.

Module Chart.
Local Open Scope Z_scope.
Local Open Scope bool_scope.

(** ** JavaScript strings *)

Definition byte_val (c : ascii) : Z := Z.of_nat (nat_of_ascii c).

(** The six payload bits of a continuation byte. *)
Definition cont (c : ascii) : Z := Z.land (byte_val c) 63.

(** The code point [cp] as UTF-16 code units. *)
Definition utf16_of_code_point (cp : Z) : list Z :=
  if cp <? 65536 then [cp]
  else [55296 + (cp - 65536) / 1024; 56320 + (cp - 65536) mod 1024].

(** The UTF-16 code units of a UTF-8 string. *)
Fixpoint utf16_units (s : string) : list Z :=
  match s with
  | EmptyString => []
  | String c0 rest =>
      let b0 := byte_val c0 in
      if b0 <? 192 then b0 :: utf16_units rest
      else if b0 <? 224 then
        match rest with
        | String c1 rest1 => utf16_of_code_point (Z.land b0 31 * 64 + cont c1) ++ utf16_units rest1
        | EmptyString => [65533]
        end
      else if b0 <? 240 then
        match rest with
        | String c1 (String c2 rest2) =>
            utf16_of_code_point (Z.land b0 15 * 4096 + cont c1 * 64 + cont c2) ++ utf16_units rest2
        | _ => [65533]
        end
      else
        match rest with
        | String c1 (String c2 (String c3 rest3)) =>
            utf16_of_code_point (Z.land b0 7 * 262144 + cont c1 * 4096 + cont c2 * 64 + cont c3)
            ++ utf16_units rest3
        | _ => [65533]
        end
  end.

(** [s.substring(start, end)]: both ends clamped to the string, swapped
    when [start > end]. *)
Definition js_substring (u : list Z) (start end_ : nat) : list Z :=
  let a := Nat.min start (List.length u) in
  let b := Nat.min end_ (List.length u) in
  let lo := Nat.min a b in
  let hi := Nat.max a b in
  firstn (hi - lo) (skipn lo u).

(** [s.substring(start)]. *)
Definition js_substring_from (u : list Z) (start : nat) : list Z :=
  js_substring u start (List.length u).

(** ** [CustomizedAxisTick] (lines 11-40) *)

(** What the tick renders: one [<text>], or two stacked ones. *)
Inductive Tick :=
| OneLine (text : list Z)
| TwoLines (first second : list Z).

Definition maxLineLength : nat := 8.

(** [payload.value.length / 2], as [substring] reads it: truncated to an
    integer. *)
Definition half_length (u : list Z) : nat := Nat.div2 (List.length u).

Definition customizedAxisTick (label : string) : Tick :=
  let u := utf16_units label in
  if (maxLineLength <? List.length u)%nat
  then TwoLines (js_substring u 0 (half_length u)) (js_substring_from u (half_length u))
  else OneLine u.

(** ** [CustomizedDot] (lines 43-67) *)

Definition KEY_METRICS : list string := [label_business; label_user; label_ai].

(** What the dot renders: nothing, the highlighted dot of a key metric, or
    the plain dot. *)
Inductive Dot := NoDot | KeyDot | PlainDot.

(** [if (!value || value === 0) return null;], then
    [KEY_METRICS.includes(payload.subject)]. *)
Definition customizedDot (subject : string) (value : Z) : Dot :=
  if value =? 0 then NoDot
  else if existsb (String.eqb subject) KEY_METRICS then KeyDot
  else PlainDot.

(** ** [combinedData] (lines 71-74) *)

(** A row of the chart: [{ ...item, ...IDEAL_DATA[index] }].  The fields
    of [IDEAL_DATA[index]] come last and win; when [index] is past its end
    the spread of [undefined] adds nothing. *)
Record ChartRow := mkChartRow {
  row_subject : string;
  row_value : Z;
  row_fullMark : Z;
  row_ideal : option Z;
  row_feasible : option Z
}.

Definition merge_row (item : DimensionScore) (ideal : option IdealData.t) : ChartRow :=
  match ideal with
  | Some d => {| row_subject := IdealData.subject d; row_value := value item;
                 row_fullMark := IdealData.fullMark d; row_ideal := Some (IdealData.ideal d);
                 row_feasible := Some (IdealData.feasible d) |}
  | None => {| row_subject := subject item; row_value := value item;
               row_fullMark := fullMark item; row_ideal := None; row_feasible := None |}
  end.

(** [data.map((item, index) => ({ ...item, ...ideals[index] }))]. *)
Fixpoint merge_rows (data : list DimensionScore) (ideals : list IdealData.t) : list ChartRow :=
  match data, ideals with
  | [], _ => []
  | item :: data', d :: ideals' => merge_row item (Some d) :: merge_rows data' ideals'
  | item :: data', [] => merge_row item None :: merge_rows data' []
  end.

Definition combinedData (data : list DimensionScore) : list ChartRow := merge_rows data IDEAL_DATA.

(** [RADAR_COLORS] (src/constants.ts, lines 38-42). *)
Definition RADAR_COLORS_main : string := "#10b981".
Definition RADAR_COLORS_ideal : string := "#f59e0b".
Definition RADAR_COLORS_feasible : string := "rgba(245, 158, 11, 0.2)".

(** The radar series drawn (lines 89-93): the ideal profile only when the
    comparison is on, then the current scores. *)
Inductive Series := IdealSeries | CurrentSeries.

Definition chart_series (showComparison : bool) : list Series :=
  if showComparison then [IdealSeries; CurrentSeries] else [CurrentSeries].


(** ** The chart (lines 70-109) *)

(** The props of a [<Radar>] (lines 90 and 93): [fillOpacity] in
    percent, [strokeWidth] when set, and whether it draws [CustomizedDot]. *)
Record SeriesView := mkSeriesView {
  sr_name : string;
  sr_dataKey : string;
  sr_stroke : string;
  sr_fill : string;
  sr_fillOpacity : Z;
  sr_strokeWidth : option Z;
  sr_customDot : bool
}.

Definition series_view (s : Series) : SeriesView :=
  match s with
  | IdealSeries =>
      {| sr_name := "理想"; sr_dataKey := "ideal"; sr_stroke := RADAR_COLORS_ideal;
         sr_fill := RADAR_COLORS_feasible; sr_fillOpacity := 60; sr_strokeWidth := None;
         sr_customDot := false |}
  | CurrentSeries =>
      {| sr_name := "目前分數"; sr_dataKey := "value"; sr_stroke := RADAR_COLORS_main;
         sr_fill := "url(#radarGradient)"; sr_fillOpacity := 100; sr_strokeWidth := Some 2;
         sr_customDot := true |}
  end.

(** [row[dataKey]], the value recharts plots for a row: a numeric field of
    the row, or [undefined] for a key the row does not have. *)
Definition row_field (key : string) (r : ChartRow) : option Z :=
  if String.eqb key "value" then Some (row_value r)
  else if String.eqb key "ideal" then row_ideal r
  else if String.eqb key "feasible" then row_feasible r
  else if String.eqb key "fullMark" then Some (row_fullMark r)
  else None.

(** [<PolarRadiusAxis domain={[0, 10]} />]. *)
Definition radius_domain : Z * Z := (0, 10).

(** The points of a series over the rows. *)
Definition series_points (s : Series) (rows : list ChartRow) : list (option Z) :=
  map (row_field (sr_dataKey (series_view s))) rows.

(** What the chart is given to draw: the axis labels ([<PolarAngleAxis
    dataKey="subject" />]), the radius domain, and each series with its
    points. *)
Record RadarView := mkRadarView {
  rv_angleLabels : list string;
  rv_domain : Z * Z;
  rv_series : list (SeriesView * list (option Z))
}.

Definition radarChartComponent (data : list DimensionScore) (showComparison : bool) : RadarView :=
  let rows := combinedData data in
  {| rv_angleLabels := map row_subject rows;
     rv_domain := radius_domain;
     rv_series := map (fun s => (series_view s, series_points s rows)) (chart_series showComparison) |}.

End Chart.

Module ChartTheorems.
Import Chart.
Local Open Scope Z_scope.

(** The text a tick shows, its lines read in order. *)
Definition tick_text (t : Tick) : list Z :=
  match t with OneLine u => u | TwoLines a b => a ++ b end.

Lemma half_length_le (u : list Z) : (half_length u <= List.length u)%nat.
Proof.
  unfold half_length. pose proof (Nat.div2_odd (List.length u)).
  destruct (Nat.odd _); simpl in *; lia.
Qed.

Lemma js_substring_prefix (u : list Z) (k : nat) :
  (k <= List.length u)%nat -> js_substring u 0 k = firstn k u.
Proof.
  intros Hk. unfold js_substring. simpl (Nat.min 0 _).
  rewrite Nat.min_l by assumption. simpl. rewrite Nat.sub_0_r. reflexivity.
Qed.

Lemma js_substring_from_suffix (u : list Z) (k : nat) :
  (k <= List.length u)%nat -> js_substring_from u k = skipn k u.
Proof.
  intros Hk. unfold js_substring_from, js_substring.
  rewrite Nat.min_l by assumption. rewrite Nat.min_id, Nat.min_l, Nat.max_r by assumption.
  apply firstn_all2. rewrite length_skipn. lia.
Qed.

Lemma customizedAxisTick_cases (label : string) :
  let u := utf16_units label in
  ((List.length u <= maxLineLength)%nat /\ customizedAxisTick label = OneLine u) \/
  ((maxLineLength < List.length u)%nat /\
   customizedAxisTick label = TwoLines (firstn (half_length u) u) (skipn (half_length u) u)).
Proof.
  cbv zeta. unfold customizedAxisTick.
  destruct (Nat.ltb_spec maxLineLength (List.length (utf16_units label))); [right|left; split; [lia|reflexivity]].
  split; [assumption|].
  rewrite js_substring_prefix, js_substring_from_suffix by apply half_length_le. reflexivity.
Qed.

(** C36: The axis tick loses and adds nothing: its lines, read in order,
    are the label's UTF-16 code units. *)
Theorem customizedAxisTick_roundtrip (label : string) :
  tick_text (customizedAxisTick label) = utf16_units label.
Proof.
  destruct (customizedAxisTick_cases label) as [[_ ->]|[_ ->]]; [reflexivity|].
  apply firstn_skipn.
Qed.

(** C37: A label is split exactly when it is longer than 8 UTF-16 code
    units, into a first line of half its length (rounded down) and a
    second line at most one unit longer. *)
Theorem customizedAxisTick_split_bounds (label : string) :
  ((exists a b, customizedAxisTick label = TwoLines a b) <->
     (maxLineLength < List.length (utf16_units label))%nat) /\
  (forall a b, customizedAxisTick label = TwoLines a b ->
     List.length a = Nat.div2 (List.length (utf16_units label)) /\
     (List.length a <= List.length b <= List.length a + 1)%nat).
Proof.
  destruct (customizedAxisTick_cases label) as [[Hle ->]|[Hlt ->]].
  - split; [split; [intros (a & b & H); discriminate|lia]|intros a b H; discriminate].
  - split; [split; [intros _; exact Hlt|intros _; eexists; eexists; reflexivity]|].
    intros a b [= <- <-]. unfold half_length.
    pose proof (half_length_le (utf16_units label)) as Hh. unfold half_length in Hh.
    rewrite length_firstn, length_skipn, Nat.min_l by exact Hh.
    pose proof (Nat.div2_odd (List.length (utf16_units label))) as Hd.
    destruct (Nat.odd _); simpl in Hd; repeat split; lia.
Qed.

(** No label of the registry is split: the longest, "AI 整合潛力", has
    7 UTF-16 code units, within the 8 of [maxLineLength]. *)
Theorem registry_ticks_one_line :
  Forall (fun d => customizedAxisTick (label d) = OneLine (utf16_units (label d))) DIMENSIONS.
Proof. repeat constructor. Qed.

(** A longer label can be split inside a code point: with four characters
    before an emoji and four after, the first line ends with the high
    surrogate of the emoji and the second starts with its low surrogate,
    each shown as a replacement character. *)
Theorem tick_split_cuts_surrogate :
  customizedAxisTick "一二三四😀五六七八"
  = TwoLines [19968; 20108; 19977; 22235; 55357] [56832; 20116; 20845; 19971; 20843].
Proof. vm_compute. reflexivity. Qed.

(** The dot of a score: none at 0, the highlighted one for business, user
    value and AI, the plain one otherwise. *)
Lemma customizedDot_spec (subj : string) (v : Z) :
  (customizedDot subj v = NoDot <-> v = 0) /\
  (customizedDot subj v = KeyDot <-> v <> 0 /\ In subj KEY_METRICS).
Proof.
  unfold customizedDot. destruct (Z.eqb_spec v 0) as [->|Hv].
  - split; [tauto|split; [discriminate|tauto]].
  - destruct (existsb (String.eqb subj) KEY_METRICS) eqn:E.
    + apply existsb_exists in E as (k & Hk & Hs). apply String.eqb_eq in Hs. subst k.
      split; [split; [discriminate|contradiction]|tauto].
    + split; [split; [discriminate|contradiction]|]. split; [discriminate|].
      intros [_ Hin].
      assert (Ht : existsb (String.eqb subj) KEY_METRICS = true)
        by (apply existsb_exists; exists subj; split; [exact Hin|apply String.eqb_refl]).
      congruence.
Qed.

(** The row of a slider whose label is the ideal row's subject. *)
Definition expected_row (s : DimensionScore) : ChartRow :=
  {| row_subject := subject s; row_value := value s; row_fullMark := 10;
     row_ideal := Some 9; row_feasible := Some 6 |}.

Lemma merge_rows_aligned (data : list DimensionScore) (ideals : list IdealData.t) :
  map subject data = map IdealData.subject ideals ->
  Forall (fun d => IdealData.fullMark d = 10 /\ IdealData.ideal d = 9 /\ IdealData.feasible d = 6) ideals ->
  merge_rows data ideals = map expected_row data.
Proof.
  revert ideals. induction data as [|s data IH]; intros [|d ideals] Hs Hf; try discriminate; [reflexivity|].
  simpl in Hs |- *. injection Hs as Hsd Hs. inversion Hf as [|? ? (H1 & H2 & H3) Hf']; subst.
  rewrite (IH ideals Hs Hf'). unfold merge_row, expected_row. rewrite Hsd, H1, H2, H3. reflexivity.
Qed.

(** On rows of sliders in registry order, the current series plots the
    sliders' values and the ideal series plots 9 everywhere. *)
Lemma series_points_expected (s : Series) (l : list DimensionScore) :
  series_points s (map expected_row l)
  = map (fun x => Some (match s with IdealSeries => 9 | CurrentSeries => value x end)) l.
Proof. unfold series_points. rewrite map_map. destruct s; reflexivity. Qed.

(** For sliders in registry order, every chart row keeps its slider's
    label and value, with full mark 10, ideal 9 and feasible 6. *)
Lemma combinedData_aligned (data : list DimensionScore) :
  map subject data = dimension_labels -> combinedData data = map expected_row data.
Proof.
  intros H. apply merge_rows_aligned; [exact H|].
  repeat constructor.
Qed.

(** ** Witnesses *)

Lemma customizedAxisTick_split_bounds_witness :
  customizedAxisTick "專案維度與理想對比" = TwoLines (utf16_units "專案維度") (utf16_units "與理想對比") /\
  List.length (utf16_units "專案維度") = Nat.div2 (List.length (utf16_units "專案維度與理想對比")) /\
  (List.length (utf16_units "專案維度") <= List.length (utf16_units "與理想對比")
     <= List.length (utf16_units "專案維度") + 1)%nat.
Proof.
  assert (Ht : customizedAxisTick "專案維度與理想對比"
               = TwoLines (utf16_units "專案維度") (utf16_units "與理想對比"))
    by (vm_compute; reflexivity).
  split; [exact Ht|]. destruct (customizedAxisTick_split_bounds "專案維度與理想對比") as [_ H].
  exact (H _ _ Ht).
Defined.

End ChartTheorems.
