(* ===== verification/Panel.v ===== *)
(** * Panel: the analysis panel of src/components/SuggestionsPanel.tsx

    [SuggestionsPanel] shows three cards: the balance index, coloured by
    [getBalanceColor] (lines 33-37); the risk radar, listing the warnings
    or a reassurance (lines 102-106); and the content area chosen by
    [renderContent] (lines 39-90), in the order loading, error, empty
    prompt, advice.  The advice card labels the solution type with
    [solutionTypeMap] (lines 13-18) and shows the improvement card only
    when there are suggestions.  The markup is not modelled; what the
    component decides to show is.  A JavaScript condition on a string
    ([if (error)]) is false for the empty string. *)
From Stdlib Require Import ZArith List String Bool Lia.
From S2P Require Import Prelude Types.
Import ListNotations.

Module Panel.
Local Open Scope string_scope.
Local Open Scope bool_scope.
Local Open Scope Z_scope.

(** ** Strings *)

(** The string without its first [n] characters. *)
Fixpoint drop_string (n : nat) (s : string) : string :=
  match n, s with
  | O, _ => s
  | S n', String _ s' => drop_string n' s'
  | S _, EmptyString => EmptyString
  end.

(** [s.replace(pat, rep)] with a string pattern: the first occurrence only. *)
Fixpoint js_replace_first (pat rep s : string) : string :=
  if String.prefix pat s then rep ++ drop_string (String.length pat) s
  else match s with
       | EmptyString => EmptyString
       | String c s' => String c (js_replace_first pat rep s')
       end.

(** [if (x)] on a value of type [string | null]. *)
Definition js_truthy (o : option string) : option string :=
  match o with Some e => if String.eqb e "" then None else Some e | None => None end.

(** ** The balance card *)

(** [getBalanceColor]. *)
Definition getBalanceColor (balanceIndex : Z) : string :=
  if 75 <? balanceIndex then "border-green-500"
  else if 50 <? balanceIndex then "border-yellow-500"
  else "border-red-500".

(** [getBalanceColor().replace('border-', 'text-')], the index's colour. *)
Definition balanceTextColor (balanceIndex : Z) : string :=
  js_replace_first "border-" "text-" (getBalanceColor balanceIndex).

(** ** The risk radar *)

Inductive RiskView :=
| RiskList (warnings : list string)
| RiskNone.

Definition riskBorder (riskWarnings : list string) : string :=
  if (0 <? List.length riskWarnings)%nat then "border-orange-500" else "border-slate-300".

Definition riskView (riskWarnings : list string) : RiskView :=
  if (0 <? List.length riskWarnings)%nat then RiskList riskWarnings else RiskNone.

(** ** The content area *)

(** [const solutionTypeMap: Record<Suggestion['solutionType'], string>]. *)
Definition solutionTypeMap (t : SolutionType) : string :=
  match t with
  | Innovative => "創新型"
  | Incremental => "漸進型"
  | Defensive => "防禦型"
  | Exploratory => "探索型"
  end.

(** The string value of the [solutionType] union member. *)
Definition solutionType_name (t : SolutionType) : string :=
  match t with
  | Innovative => "Innovative"
  | Incremental => "Incremental"
  | Defensive => "Defensive"
  | Exploratory => "Exploratory"
  end.

(** [solutionTypeMap[t] || t]. *)
Definition solutionType_label (t : SolutionType) : string :=
  let l := solutionTypeMap t in if String.eqb l "" then solutionType_name t else l.

(** What the content area shows. *)
Inductive Content :=
| ContentLoading
| ContentError (msg : string)
| ContentPrompt
| ContentAdvice (typeLabel summary : string) (improvements : option (list Improvement.t)).

(** [renderContent]. *)
Definition renderContent (suggestions : option Suggestion) (isLoading : bool)
    (error : option string) : Content :=
  if isLoading then ContentLoading
  else match js_truthy error with
       | Some e => ContentError e
       | None =>
           match suggestions with
           | None => ContentPrompt
           | Some s =>
               ContentAdvice (solutionType_label (solutionType s)) (strategicSummary s)
                 (if (0 <? List.length (improvementSuggestions s))%nat
                  then Some (improvementSuggestions s) else None)
           end
       end.

(** ** The component *)

(** [interface SuggestionsPanelProps]. *)
Record PanelProps := mkPanelProps {
  props_suggestions : option Suggestion;
  props_isLoading : bool;
  props_error : option string;
  props_balanceIndex : Z;
  props_riskWarnings : list string
}.

Record PanelView := mkPanelView {
  view_balanceIndex : Z;
  view_balanceBorder : string;
  view_balanceText : string;
  view_riskBorder : string;
  view_risk : RiskView;
  view_content : Content
}.

Definition suggestionsPanel (p : PanelProps) : PanelView :=
  {| view_balanceIndex := props_balanceIndex p;
     view_balanceBorder := getBalanceColor (props_balanceIndex p);
     view_balanceText := balanceTextColor (props_balanceIndex p);
     view_riskBorder := riskBorder (props_riskWarnings p);
     view_risk := riskView (props_riskWarnings p);
     view_content := renderContent (props_suggestions p) (props_isLoading p) (props_error p) |}.

End Panel.

Module PanelTheorems.
Import Panel.
Local Open Scope string_scope.
Local Open Scope Z_scope.

(** C39: The balance card is green above 75, yellow above 50 and red
    otherwise, and the index is written in the same colour: the
    [replace('border-', 'text-')] of the border class. *)
Theorem balance_color_bands (b : Z) :
  (75 < b -> getBalanceColor b = "border-green-500" /\ balanceTextColor b = "text-green-500") /\
  (50 < b <= 75 -> getBalanceColor b = "border-yellow-500" /\ balanceTextColor b = "text-yellow-500") /\
  (b <= 50 -> getBalanceColor b = "border-red-500" /\ balanceTextColor b = "text-red-500").
Proof.
  unfold balanceTextColor, getBalanceColor.
  repeat split; intros; zbool; try lia; reflexivity.
Qed.

(** C38: The content area shows, in this order of priority: the loading
    state whenever loading; else a non-empty error (an empty message is
    falsy and shows nothing); else the prompt when there is no advice;
    else the advice, with the improvement card only when there are
    suggestions. *)
Theorem renderContent_priority (sugg : option Suggestion) (err : option string) :
  renderContent sugg true err = ContentLoading /\
  (forall e, e <> "" -> renderContent sugg false (Some e) = ContentError e) /\
  renderContent sugg false (Some "") = renderContent sugg false None /\
  renderContent None false None = ContentPrompt /\
  (forall s, renderContent (Some s) false None =
     ContentAdvice (solutionTypeMap (solutionType s)) (strategicSummary s)
       (match improvementSuggestions s with [] => None | l => Some l end)).
Proof.
  repeat split.
  - intros e He. unfold renderContent, js_truthy.
    destruct (String.eqb_spec e ""); [contradiction|reflexivity].
  - intros s. unfold renderContent, solutionType_label. simpl.
    replace (String.eqb (solutionTypeMap (solutionType s)) "") with false
      by (destruct (solutionType s); reflexivity).
    destruct (improvementSuggestions s); reflexivity.
Qed.

(** C40: [solutionTypeMap] labels every member of the [solutionType] union
    with a non-empty label, so the [|| solutionType] fallback never shows,
    and different types get different labels. *)
Theorem solutionTypeMap_total_injective :
  (forall t, solutionType_label t = solutionTypeMap t /\ solutionTypeMap t <> "") /\
  (forall t1 t2, solutionTypeMap t1 = solutionTypeMap t2 -> t1 = t2).
Proof.
  split.
  - intros t; destruct t; split; (reflexivity || discriminate).
  - intros [] []; simpl; congruence.
Qed.

(** The risk radar lists the warnings, with an orange border, exactly when
    there are some. *)
Lemma riskView_spec (ws : list string) :
  (ws = [] -> riskView ws = RiskNone /\ riskBorder ws = "border-slate-300") /\
  (ws <> [] -> riskView ws = RiskList ws /\ riskBorder ws = "border-orange-500").
Proof. destruct ws; split; intros H; (congruence || (split; reflexivity)). Qed.

(** ** Witnesses *)

Lemma balance_color_bands_witness :
  getBalanceColor 80 = "border-green-500" /\ balanceTextColor 80 = "text-green-500".
Proof. destruct (balance_color_bands 80) as [H _]. apply H. lia. Defined.

Lemma renderContent_priority_witness :
  renderContent None false (Some "網路錯誤") = ContentError "網路錯誤".
Proof. destruct (renderContent_priority None (Some "網路錯誤")) as (_ & H & _). apply H. discriminate. Defined.

Lemma solutionTypeMap_total_injective_witness : solutionTypeMap Innovative <> "".
Proof. destruct solutionTypeMap_total_injective as [H _]. apply (H Innovative). Defined.

End PanelTheorems.
