(* ===== verification/App.v ===== *)
(** * App: the page as a state machine (src/App.tsx, src/components/ScoreControls.tsx)

    The React state of [App] (its [useState] hooks), the local state of
    [ScoreControls] ([urlInput]), the debounced copy of the scores
    ([useDebounce], in src/hooks, outside src/: modelled from its use) and
    the asynchronous calls in flight form the record [State].  Each handler
    of the page is a function on it; an [await] splits a handler in two:
    the part before the await runs on the click and leaves a [Task] in
    [pending]; the part after runs when the task settles ([Settle]).
    React batches the [setState] calls of one handler; applying them in
    order gives the same final state.

    [handle] is what the code does when a handler runs.  [enabled] is
    when the page lets it run: sliders and the "start" button are shown
    or hidden by [isPristine], buttons and inputs are disabled while
    [isLoading || isAnalyzingUrl], the advice button also while no score is
    set.  [ui_step] and [reachable] are the runs the page allows; the
    invariant [Inv] holds on every reachable state.  Everything is proved
    for any [StrategyService]. *)
From Stdlib Require Import ZArith List String Bool Lia Wf_nat Wellfounded.
From S2P Require Import Prelude Types Dimensions Advice Profiles Service.
Import ListNotations.

Module App.
Local Open Scope Z_scope.
Local Open Scope bool_scope.

(** An asynchronous call in flight, with the arguments it was given. *)
Inductive Task :=
| AdviceTask (args : list DimensionScore)   (** [getDesignAdvice(debouncedScores)] *)
| UrlTask (url : string).                    (** [analyzeUrlAndScore(url)] *)

Record State := mkState {
  scores : list DimensionScore;
  suggestions : option Suggestion;
  isLoading : bool;
  isAnalyzingUrl : bool;
  error : option string;
  showComparison : bool;
  isPristine : bool;
  debouncedScores : list DimensionScore;
  debouncePending : bool;
  urlInput : string;
  pending : list Task
}.

(** The user's actions and the timers of the page. *)
Inductive Event :=
| SliderChange (subj : string) (v : Z)  (** a slider's [onChange] *)
| StartManualScoring                     (** the "start manual scoring" button *)
| ToggleComparison                       (** the comparison checkbox *)
| UrlInputChange (s : string)            (** the URL input's [onChange] *)
| ClickAnalyze                           (** the "analyze" button *)
| ClickAdvice                            (** the "generate advice" button *)
| DebounceFire                           (** the 500 ms timer of [useDebounce] *)
| Settle (i : nat).                      (** the [i]-th call in flight settles *)

Definition url_empty_error : string := "請輸入有效的網址。".
Definition url_failed_error : string := "無法分析該網址。請檢查網址或稍後再試。".
Definition advice_failed_error : string := "無法從 AI 獲取建議。請再試一次。".

(** [useState(DIMENSIONS.map(d => ({ subject: d.label, value: 0, fullMark: 10 })))]
    and the other initial values. *)
Definition initial_scores : list DimensionScore :=
  map (fun d => {| subject := label d; value := 0; fullMark := 10 |}) DIMENSIONS.

Definition initial : State := {|
  scores := initial_scores; suggestions := None; isLoading := false;
  isAnalyzingUrl := false; error := None; showComparison := false;
  isPristine := true; debouncedScores := initial_scores; debouncePending := false;
  urlInput := ""; pending := [] |}.

(** [setScores]: a new array, so [useDebounce]'s effect schedules its timer. *)
Definition setScores (l : list DimensionScore) (st : State) : State :=
  {| scores := l; suggestions := suggestions st; isLoading := isLoading st;
     isAnalyzingUrl := isAnalyzingUrl st; error := error st;
     showComparison := showComparison st; isPristine := isPristine st;
     debouncedScores := debouncedScores st; debouncePending := true;
     urlInput := urlInput st; pending := pending st |}.

(** The other setters, one field each. *)
Definition setSuggestions (o : option Suggestion) (st : State) : State :=
  {| scores := scores st; suggestions := o; isLoading := isLoading st;
     isAnalyzingUrl := isAnalyzingUrl st; error := error st;
     showComparison := showComparison st; isPristine := isPristine st;
     debouncedScores := debouncedScores st; debouncePending := debouncePending st;
     urlInput := urlInput st; pending := pending st |}.
Definition setIsLoading (b : bool) (st : State) : State :=
  {| scores := scores st; suggestions := suggestions st; isLoading := b;
     isAnalyzingUrl := isAnalyzingUrl st; error := error st;
     showComparison := showComparison st; isPristine := isPristine st;
     debouncedScores := debouncedScores st; debouncePending := debouncePending st;
     urlInput := urlInput st; pending := pending st |}.
Definition setIsAnalyzingUrl (b : bool) (st : State) : State :=
  {| scores := scores st; suggestions := suggestions st; isLoading := isLoading st;
     isAnalyzingUrl := b; error := error st;
     showComparison := showComparison st; isPristine := isPristine st;
     debouncedScores := debouncedScores st; debouncePending := debouncePending st;
     urlInput := urlInput st; pending := pending st |}.
Definition setError (o : option string) (st : State) : State :=
  {| scores := scores st; suggestions := suggestions st; isLoading := isLoading st;
     isAnalyzingUrl := isAnalyzingUrl st; error := o;
     showComparison := showComparison st; isPristine := isPristine st;
     debouncedScores := debouncedScores st; debouncePending := debouncePending st;
     urlInput := urlInput st; pending := pending st |}.
Definition setShowComparison (b : bool) (st : State) : State :=
  {| scores := scores st; suggestions := suggestions st; isLoading := isLoading st;
     isAnalyzingUrl := isAnalyzingUrl st; error := error st;
     showComparison := b; isPristine := isPristine st;
     debouncedScores := debouncedScores st; debouncePending := debouncePending st;
     urlInput := urlInput st; pending := pending st |}.
Definition setIsPristine (b : bool) (st : State) : State :=
  {| scores := scores st; suggestions := suggestions st; isLoading := isLoading st;
     isAnalyzingUrl := isAnalyzingUrl st; error := error st;
     showComparison := showComparison st; isPristine := b;
     debouncedScores := debouncedScores st; debouncePending := debouncePending st;
     urlInput := urlInput st; pending := pending st |}.
Definition setUrlInput (s : string) (st : State) : State :=
  {| scores := scores st; suggestions := suggestions st; isLoading := isLoading st;
     isAnalyzingUrl := isAnalyzingUrl st; error := error st;
     showComparison := showComparison st; isPristine := isPristine st;
     debouncedScores := debouncedScores st; debouncePending := debouncePending st;
     urlInput := s; pending := pending st |}.
(** [useDebounce]'s timer fires: [setDebouncedValue(value)]. *)
Definition fireDebounce (st : State) : State :=
  {| scores := scores st; suggestions := suggestions st; isLoading := isLoading st;
     isAnalyzingUrl := isAnalyzingUrl st; error := error st;
     showComparison := showComparison st; isPristine := isPristine st;
     debouncedScores := scores st; debouncePending := false;
     urlInput := urlInput st; pending := pending st |}.
Definition setPending (l : list Task) (st : State) : State :=
  {| scores := scores st; suggestions := suggestions st; isLoading := isLoading st;
     isAnalyzingUrl := isAnalyzingUrl st; error := error st;
     showComparison := showComparison st; isPristine := isPristine st;
     debouncedScores := debouncedScores st; debouncePending := debouncePending st;
     urlInput := urlInput st; pending := l |}.

(** The list without its [i]-th element. *)
Definition remove_nth {A : Type} (i : nat) (l : list A) : list A := firstn i l ++ skipn (S i) l.

Section WithService.
Context `{SVC : StrategyService}.

(** [handleSliderChange] (ScoreControls.tsx, lines 22-27), then
    [handleScoresChange] (App.tsx, lines 24-26). *)
Definition handleSliderChange (subj : string) (v : Z) (st : State) : State :=
  setScores (map (fun s => if String.eqb (subject s) subj
                           then {| subject := subject s; value := v; fullMark := fullMark s |}
                           else s) (scores st)) st.

(** [fetchSuggestions] up to its [await] (App.tsx, lines 35-39). *)
Definition fetchSuggestions_start (st : State) : State :=
  setPending (pending st ++ [AdviceTask (debouncedScores st)])
    (setSuggestions None (setError None (setIsLoading true st))).

(** [fetchSuggestions] after its [await] (lines 39-46): the advice is
    stored, or the [catch] sets the failure message; [finally] clears the
    loading flag. *)
Definition fetchSuggestions_settle (args : list DimensionScore) (st : State) : State :=
  match advise args with
  | Resolved advice => setIsLoading false (setSuggestions (Some advice) st)
  | Rejected _ => setIsLoading false (setError (Some advice_failed_error) st)
  end.

(** [handleUrlAnalysis] up to its [await] (App.tsx, lines 51-59). *)
Definition handleUrlAnalysis_start (url : string) (st : State) : State :=
  if String.eqb url "" then setError (Some url_empty_error) st
  else setPending (pending st ++ [UrlTask url])
         (setSuggestions None (setError None (setIsAnalyzingUrl true st))).

(** [handleUrlAnalysis] after its [await] (lines 60-79). *)
Definition handleUrlAnalysis_settle (url : string) (st : State) : State :=
  match analyze url with
  | Resolved result =>
      setIsAnalyzingUrl false
        (setIsPristine false (setSuggestions (Some (Types.suggestions result))
           (setScores (Profiles.toDimensionScores result) st)))
  | Rejected _ => setIsAnalyzingUrl false (setError (Some url_failed_error) st)
  end.

(** The code run by each event. *)
Definition handle (st : State) (ev : Event) : State :=
  match ev with
  | SliderChange subj v => handleSliderChange subj v st
  | StartManualScoring => setIsPristine false st
  | ToggleComparison => setShowComparison (negb (showComparison st)) st
  | UrlInputChange s => setUrlInput s st
  | ClickAnalyze => handleUrlAnalysis_start (urlInput st) st
  | ClickAdvice => fetchSuggestions_start st
  | DebounceFire => fireDebounce st
  | Settle i =>
      match nth_error (pending st) i with
      | Some (AdviceTask args) => fetchSuggestions_settle args (setPending (remove_nth i (pending st)) st)
      | Some (UrlTask url) => handleUrlAnalysis_settle url (setPending (remove_nth i (pending st)) st)
      | None => st
      end
  end.

(** [const isBusy = isLoading || isAnalyzingUrl] (ScoreControls.tsx). *)
Definition isBusy (st : State) : bool := isLoading st || isAnalyzingUrl st.

(** [const hasScores = scores.some(s => s.value > 0)]. *)
Definition hasScores (st : State) : bool := existsb (fun s => 0 <? value s) (scores st).

(** When the page lets an event happen: the widget is rendered and not
    disabled; a slider only takes the integers [min="0" max="10"] allow;
    a timer only fires when it is set. *)
Definition enabled (st : State) (ev : Event) : bool :=
  match ev with
  | SliderChange subj v =>
      negb (isPristine st) && negb (isBusy st) && (0 <=? v) && (v <=? 10)
      && existsb (String.eqb subj) dimension_labels
  | StartManualScoring => isPristine st
  | ToggleComparison => negb (isPristine st)
  | UrlInputChange _ => negb (isBusy st)
  | ClickAnalyze => negb (isBusy st)
  | ClickAdvice => negb (isBusy st || negb (hasScores st))
  | DebounceFire => debouncePending st
  | Settle i => (i <? List.length (pending st))%nat
  end.

Inductive ui_step : State -> Event -> State -> Prop :=
| ui_step_intro st ev : enabled st ev = true -> ui_step st ev (handle st ev).

Inductive reachable : State -> Prop :=
| reachable_initial : reachable initial
| reachable_step st ev st' : reachable st -> ui_step st ev st' -> reachable st'.

End WithService.

(** ** The invariant *)

(** The spec's invariant of the score store: the five dimension labels in
    registry order, each value between 0 and 10. *)
Definition slider_wf (l : list DimensionScore) : Prop :=
  map subject l = dimension_labels /\ Forall (fun s => 0 <= value s <= 10) l.

(** Every slider at 0 ("unset"). *)
Definition all_unset (l : list DimensionScore) : Prop := Forall (fun s => value s = 0) l.

(** At most one call in flight, and the busy flags say which. *)
Definition busy_wf (st : State) : Prop :=
  (pending st = [] /\ isLoading st = false /\ isAnalyzingUrl st = false) \/
  (exists a, pending st = [AdviceTask a] /\ isLoading st = true /\ isAnalyzingUrl st = false) \/
  (exists u, pending st = [UrlTask u] /\ isLoading st = false /\ isAnalyzingUrl st = true).

Record Inv (st : State) : Prop := {
  inv_scores : slider_wf (scores st);
  inv_debounced : slider_wf (debouncedScores st);
  inv_args : forall a, In (AdviceTask a) (pending st) -> slider_wf a;
  inv_busy : busy_wf st;
  inv_pristine : isPristine st = true -> all_unset (scores st) /\ all_unset (debouncedScores st)
}.

Lemma slider_wf_initial : slider_wf initial_scores.
Proof. split; [reflexivity|repeat (apply Forall_cons; [simpl; lia|]); apply Forall_nil]. Qed.

Lemma Inv_initial : Inv initial.
Proof.
  constructor; simpl; try apply slider_wf_initial.
  - intros a [].
  - left; repeat split.
  - intros _. split; repeat (apply Forall_cons; [reflexivity|]); apply Forall_nil.
Qed.

Lemma not_busy_idle (st : State) :
  busy_wf st -> isBusy st = false -> pending st = [].
Proof.
  unfold isBusy. intros [(H & _)|[(a & _ & H & _)|(u & _ & _ & H)]] Hb; [exact H| |];
    rewrite H in Hb; [discriminate|rewrite orb_true_r in Hb; discriminate].
Qed.

Section WithService'.
Context `{SVC : StrategyService}.

Lemma slider_wf_update (l : list DimensionScore) (subj : string) (v : Z) :
  slider_wf l -> 0 <= v <= 10 ->
  slider_wf (map (fun s => if String.eqb (subject s) subj
                           then {| subject := subject s; value := v; fullMark := fullMark s |}
                           else s) l).
Proof.
  intros [Hl Hv] Hrange. split.
  - rewrite map_map, <- Hl. apply map_ext. intros s. destruct (String.eqb _ _); reflexivity.
  - apply Forall_map. eapply Forall_impl; [|exact Hv]. intros s Hs. cbv beta in *.
    destruct (String.eqb _ _); simpl; lia.
Qed.

Lemma slider_wf_toDimensionScores (r : AnalysisResult) :
  Forall (fun s => 0 <= AIScore.value s <= 10) (Types.scores r) ->
  slider_wf (Profiles.toDimensionScores r).
Proof.
  intros Hr. unfold Profiles.toDimensionScores. split.
  - rewrite map_map. reflexivity.
  - apply Forall_map, Forall_forall. intros d _. cbv zeta.
    destruct (find _ (Types.scores r)) as [s|] eqn:E; simpl; [|lia].
    apply find_some in E as [Hs _]. rewrite Forall_forall in Hr. exact (Hr s Hs).
Qed.

Lemma hasScores_unset (st : State) : all_unset (scores st) -> hasScores st = false.
Proof.
  unfold hasScores, all_unset. induction 1 as [|s l Hs _ IH]; [reflexivity|].
  simpl. rewrite Hs, IH. reflexivity.
Qed.

(** The events that leave scores, calls and flags alone keep [Inv]. *)
Lemma Inv_same (st st' : State) :
  Inv st -> scores st' = scores st -> debouncedScores st' = debouncedScores st ->
  pending st' = pending st -> isLoading st' = isLoading st ->
  isAnalyzingUrl st' = isAnalyzingUrl st -> (isPristine st' = true -> isPristine st = true) ->
  Inv st'.
Proof.
  intros [Hs Hd Ha Hb Hp] E1 E2 E3 E4 E5 E6. constructor; rewrite ?E1, ?E2, ?E3; try assumption.
  - unfold busy_wf in *. rewrite E3, E4, E5. exact Hb.
  - intros H. apply Hp, E6, H.
Qed.

Lemma Inv_slider (st : State) (subj : string) (v : Z) :
  Inv st -> enabled st (SliderChange subj v) = true -> Inv (handle st (SliderChange subj v)).
Proof.
  intros [Hs Hd Ha Hb Hp] He. simpl in He.
  repeat rewrite andb_true_iff in He. destruct He as ((((Hpr & _) & H0) & H10) & _).
  apply Z.leb_le in H0, H10. apply negb_true_iff in Hpr.
  constructor; simpl; try assumption.
  - apply slider_wf_update; [assumption|lia].
  - rewrite Hpr. discriminate.
Qed.

Lemma Inv_analyze (st : State) :
  Inv st -> enabled st ClickAnalyze = true -> Inv (handle st ClickAnalyze).
Proof.
  intros HI He. simpl in He. apply negb_true_iff in He.
  pose proof (not_busy_idle st (inv_busy st HI) He) as Hidle.
  unfold isBusy in He. apply orb_false_iff in He as [Hl Hu].
  simpl. unfold handleUrlAnalysis_start. destruct (String.eqb (urlInput st) "").
  - apply (Inv_same st); auto.
  - destruct HI as [Hs Hd Ha Hb Hp]. constructor; simpl; try assumption.
    + rewrite Hidle. intros a [[=]|[]].
    + right; right. exists (urlInput st). rewrite Hidle. auto.
Qed.

Lemma Inv_advice (st : State) :
  Inv st -> enabled st ClickAdvice = true -> Inv (handle st ClickAdvice).
Proof.
  intros HI He. simpl in He. apply negb_true_iff, orb_false_iff in He as [He _].
  pose proof (not_busy_idle st (inv_busy st HI) He) as Hidle.
  unfold isBusy in He. apply orb_false_iff in He as [Hl Hu].
  destruct HI as [Hs Hd Ha Hb Hp]. simpl. unfold fetchSuggestions_start.
  constructor; simpl; try assumption.
  - rewrite Hidle. intros a [[= <-]|[]]. exact Hd.
  - right; left. exists (debouncedScores st). rewrite Hidle. auto.
Qed.

Lemma Inv_debounce (st : State) : Inv st -> Inv (handle st DebounceFire).
Proof.
  intros [Hs Hd Ha Hb Hp]. constructor; simpl; try assumption.
  intros H. destruct (Hp H). split; assumption.
Qed.

Lemma Inv_settle (st : State) (i : nat) :
  Inv st -> enabled st (Settle i) = true -> Inv (handle st (Settle i)).
Proof.
  intros HI He. simpl in He. apply Nat.ltb_lt in He.
  destruct HI as [Hs Hd Ha Hb Hp].
  destruct Hb as [(Hq & Hl & Hu)|[(a & Hq & Hl & Hu)|(u & Hq & Hl & Hu)]];
    rewrite Hq in He; simpl in He; [lia| |];
    assert (i = 0%nat) as -> by lia; simpl; rewrite Hq; simpl.
  - unfold fetchSuggestions_settle. destruct (advise a);
      constructor; simpl; try assumption; [intros b []|left; auto|intros b []|left; auto].
  - unfold handleUrlAnalysis_settle. destruct (analyze u) as [r|m] eqn:Er.
    + constructor; simpl; try assumption.
      * apply slider_wf_toDimensionScores. eapply analyze_scores_range. exact Er.
      * intros b [].
      * left. auto.
      * discriminate.
    + constructor; simpl; try assumption.
      * intros b [].
      * left. auto.
Qed.

(** Every step the page allows keeps the invariant. *)
Lemma Inv_step (st : State) (ev : Event) :
  Inv st -> enabled st ev = true -> Inv (handle st ev).
Proof.
  intros HI He. destruct ev.
  - apply Inv_slider; assumption.
  - apply (Inv_same st); simpl; auto; discriminate.
  - apply (Inv_same st); auto.
  - apply (Inv_same st); auto.
  - apply Inv_analyze; assumption.
  - apply Inv_advice; assumption.
  - apply Inv_debounce; assumption.
  - apply Inv_settle; assumption.
Qed.

(** The invariant holds on every state the page can reach. *)
Lemma Inv_reachable (st : State) : reachable st -> Inv st.
Proof.
  induction 1 as [|st ev st' _ IH Hstep]; [apply Inv_initial|].
  inversion Hstep; subst. apply Inv_step; assumption.
Qed.

End WithService'.
End App.

Module AppTheorems.
Import App.
Local Open Scope Z_scope.

(** Running a list of events, and checking that the page allows each. *)
Section Runs.
Context `{SVC : StrategyService}.

Definition run (st : State) (evs : list Event) : State := fold_left handle evs st.

Fixpoint run_enabled (st : State) (evs : list Event) : bool :=
  match evs with
  | [] => true
  | ev :: evs' => enabled st ev && run_enabled (handle st ev) evs'
  end.

Lemma reachable_run (st : State) (evs : list Event) :
  reachable st -> run_enabled st evs = true -> reachable (run st evs).
Proof.
  revert st. induction evs as [|ev evs IH]; intros st Hr He; [exact Hr|].
  simpl in He. apply andb_true_iff in He as [He1 He2].
  apply IH; [|exact He2]. econstructor; [exact Hr|constructor; exact He1].
Qed.

(** C5: Every state the page can reach satisfies the invariant: the
    sliders and their debounced copy hold the five dimension labels in
    order with values in 0..10, at most one call is in flight and the busy
    flags say which, and a pristine page has no score set. *)
Theorem reachable_Inv (st : State) : reachable st -> Inv st.
Proof. apply Inv_reachable. Qed.

(** C6: The page never has two calls in flight, so the "last write wins"
    race between two advice or analysis calls cannot happen: a second
    click is impossible while the page is busy, and the page is busy
    exactly while a call is in flight. *)
Theorem reachable_single_call (st : State) :
  reachable st ->
  (List.length (pending st) <= 1)%nat /\ (isBusy st = false <-> pending st = []) /\
  (isBusy st = true -> enabled st ClickAdvice = false /\ enabled st ClickAnalyze = false).
Proof.
  intros Hr. destruct (inv_busy st (Inv_reachable st Hr)) as
    [(Hq & Hl & Hu)|[(a & Hq & Hl & Hu)|(u & Hq & Hl & Hu)]];
    simpl; unfold isBusy; rewrite Hq, Hl, Hu; simpl;
    repeat split; intros; try lia; try discriminate; reflexivity.
Qed.

(** While the page is pristine, the advice button stays disabled: no
    score is set. *)
Theorem pristine_advice_disabled (st : State) :
  reachable st -> isPristine st = true -> enabled st ClickAdvice = false.
Proof.
  intros Hr Hp. destruct (inv_pristine st (Inv_reachable st Hr) Hp) as [Hs _].
  simpl. rewrite (hasScores_unset st Hs), orb_true_r. reflexivity.
Qed.

(** C20: A rejected analysis leaves the sliders as they were and shows the
    failure message, but the suggestions shown before the click are gone:
    [handleUrlAnalysis] clears them before its [await]. *)
Theorem url_rejected_effect (st : State) (m : string) :
  pending st = [] -> urlInput st <> ""%string -> analyze (urlInput st) = Rejected m ->
  let st' := run st [ClickAnalyze; Settle 0] in
  scores st' = scores st /\ suggestions st' = None /\
  error st' = Some url_failed_error /\ isAnalyzingUrl st' = false /\ pending st' = [].
Proof.
  intros Hq Hu Ha. simpl. unfold handleUrlAnalysis_start.
  destruct (String.eqb_spec (urlInput st) ""); [contradiction|].
  simpl. rewrite Hq. simpl. unfold handleUrlAnalysis_settle. simpl. rewrite Ha.
  repeat split.
Qed.

(** C21: A resolved analysis replaces the sliders by the result's scores,
    shows the result's canned suggestions and leaves the pristine state. *)
Theorem url_resolved_effect (st : State) (r : AnalysisResult) :
  pending st = [] -> urlInput st <> ""%string -> analyze (urlInput st) = Resolved r ->
  let st' := run st [ClickAnalyze; Settle 0] in
  scores st' = Profiles.toDimensionScores r /\ suggestions st' = Some (Types.suggestions r) /\
  error st' = None /\ isPristine st' = false /\ isAnalyzingUrl st' = false /\ pending st' = [].
Proof.
  intros Hq Hu Ha. simpl. unfold handleUrlAnalysis_start.
  destruct (String.eqb_spec (urlInput st) ""); [contradiction|].
  simpl. rewrite Hq. simpl. unfold handleUrlAnalysis_settle. simpl. rewrite Ha.
  repeat split.
Qed.

(** C22: After a click on the advice button the call settles with the
    service's outcome on the debounced scores as they were at the click:
    resolved advice is shown with no error, a rejection shows the failure
    message of the [catch] and no advice; either way [finally] clears the
    loading flag and no call is left. *)
Theorem advice_settle_effect (st : State) :
  pending st = [] ->
  let st' := run st [ClickAdvice; Settle 0] in
  (forall s, advise (debouncedScores st) = Resolved s -> suggestions st' = Some s /\ error st' = None) /\
  (forall m, advise (debouncedScores st) = Rejected m ->
     suggestions st' = None /\ error st' = Some advice_failed_error) /\
  isLoading st' = false /\ pending st' = [].
Proof.
  intros Hq. simpl. rewrite Hq. simpl. unfold fetchSuggestions_settle.
  destruct (advise (debouncedScores st)) as [s0|m0]; simpl;
    refine (conj _ (conj _ (conj eq_refl eq_refl))); intros x Hx; inversion Hx; subst; split; reflexivity.
Qed.

(** Without the page's guard, two advice calls in flight would clear
    the loading flag as soon as the first settles, while the second is
    still pending: the guard of [reachable_single_call] is needed. *)
Theorem unguarded_double_fetch (st : State) :
  pending st = [] ->
  let st' := run st [ClickAdvice; ClickAdvice; Settle 0] in
  isLoading st' = false /\ pending st' = [AdviceTask (debouncedScores st)].
Proof.
  intros Hq. simpl. rewrite Hq. simpl. unfold fetchSuggestions_settle.
  destruct (advise (debouncedScores st)); split; reflexivity.
Qed.

End Runs.



(** ** Quiescence

    Two kinds of event change the page without the user: the timer of
    [useDebounce] firing and a call in flight settling.  Each one lowers
    [env_measure], two units per call in flight and one for an armed timer
    (a settling analysis arms the timer through [setScores] but removes its
    own call), so these events alone cannot go on forever. *)

(** The events no user action triggers. *)
Definition env_event (ev : Event) : bool :=
  match ev with DebounceFire | Settle _ => true | _ => false end.

Section Quiescence.
Context `{SVC : StrategyService}.

(** [st'] follows [st] by an environment event the page allows. *)
Definition env_step (st' st : State) : Prop :=
  exists ev, env_event ev = true /\ enabled st ev = true /\ st' = handle st ev.

Definition env_measure (st : State) : nat :=
  2 * List.length (pending st) + (if debouncePending st then 1 else 0).

Lemma length_remove_nth {A : Type} (i : nat) (l : list A) :
  (i < List.length l)%nat -> List.length (remove_nth i l) = pred (List.length l).
Proof. intros Hi. unfold remove_nth. rewrite length_app, length_firstn, length_skipn. lia. Qed.

Lemma env_step_measure (st' st : State) :
  env_step st' st -> (env_measure st' < env_measure st)%nat.
Proof.
  intros (ev & Henv & Hen & ->). unfold env_measure.
  destruct ev as [| | | | | | |i]; try discriminate; simpl in Hen |- *.
  - rewrite Hen. lia.
  - apply Nat.ltb_lt in Hen.
    destruct (nth_error (pending st) i) as [[a|u]|] eqn:E;
      [| |apply nth_error_None in E; lia].
    all: unfold fetchSuggestions_settle, handleUrlAnalysis_settle;
      first [destruct (advise a) | destruct (analyze u)];
      simpl; rewrite length_remove_nth by exact Hen; destruct (debouncePending st); lia.
Qed.

(** The measure pulled back to states, as the loop variants of
    [well_founded] proofs are. *)
Lemma env_step_wf : well_founded env_step.
Proof.
  apply (wf_incl _ _ (ltof _ env_measure)); [|apply well_founded_ltof].
  intros st' st H. apply env_step_measure, H.
Qed.

(** The classical reading: no infinite descending sequence. *)
Lemma env_step_no_infinite_chain :
  ~ exists s : nat -> State, forall i, env_step (s (S i)) (s i).
Proof.
  intros [s Hs].
  assert (H : forall st, ~ exists i, s i = st).
  { intros st. induction st as [st IH] using (well_founded_ind env_step_wf).
    intros [i <-]. apply (IH (s (S i)) (Hs i)). exists (S i). reflexivity. }
  apply (H (s 0%nat)). exists 0%nat. reflexivity.
Qed.

Lemma env_run_bound (st : State) (evs : list Event) :
  forallb env_event evs = true -> run_enabled st evs = true ->
  (List.length evs <= env_measure st)%nat.
Proof.
  revert st. induction evs as [|ev evs IH]; intros st He Hr; simpl; [lia|].
  simpl in He, Hr. apply andb_true_iff in He as [He1 He2]. apply andb_true_iff in Hr as [Hr1 Hr2].
  pose proof (env_step_measure (handle st ev) st (ex_intro _ ev (conj He1 (conj Hr1 eq_refl)))).
  specialize (IH (handle st ev) He2 Hr2). lia.
Qed.

(** C28: Without user input the page comes to rest.  The environment
    events the page allows (the debounce timer firing, calls settling) form
    a well-founded relation on states: there is no infinite sequence of
    them, and a run of them from a state has at most two events per call
    in flight plus one for an armed timer. *)
Theorem env_events_terminate :
  well_founded env_step /\
  ~ (exists s : nat -> State, forall i, env_step (s (S i)) (s i)) /\
  (forall st evs, forallb env_event evs = true -> run_enabled st evs = true ->
     (List.length evs <= 2 * List.length (pending st) + (if debouncePending st then 1 else 0))%nat).
Proof.
  split; [exact env_step_wf|split; [exact env_step_no_infinite_chain|]].
  exact env_run_bound.
Qed.

End Quiescence.

(** ** Witnesses *)

(** A page with a shop URL typed in. *)
Definition shop_url_page : State := setUrlInput "https://shop.example.com" initial.

Lemma shop_url_page_reachable : reachable shop_url_page.
Proof.
  apply (reachable_run initial [UrlInputChange "https://shop.example.com"]);
    [constructor|reflexivity].
Qed.

Lemma reachable_Inv_witness : reachable initial /\ Inv initial.
Proof. split; [constructor|apply reachable_Inv; constructor]. Defined.

Lemma reachable_single_call_witness :
  (List.length (pending initial) <= 1)%nat /\ (isBusy initial = false <-> pending initial = []) /\
  (isBusy initial = true -> enabled initial ClickAdvice = false /\ enabled initial ClickAnalyze = false).
Proof. apply reachable_single_call. constructor. Defined.

Lemma pristine_advice_disabled_witness : enabled initial ClickAdvice = false.
Proof. apply pristine_advice_disabled; [constructor|reflexivity]. Defined.

Lemma url_rejected_effect_witness :
  let st := setUrlInput "not-a-url" initial in
  let st' := run st [ClickAnalyze; Settle 0] in
  scores st' = scores st /\ suggestions st' = None /\
  error st' = Some url_failed_error /\ isAnalyzingUrl st' = false /\ pending st' = [].
Proof.
  apply (url_rejected_effect _ Profiles.invalid_url_message);
    [reflexivity|discriminate|vm_compute; reflexivity].
Defined.

Lemma url_resolved_effect_witness :
  let st := setUrlInput "https://shop.example.com" initial in
  let st' := run st [ClickAnalyze; Settle 0] in
  scores st' = Profiles.toDimensionScores Profiles.ECOMMERCE_PROFILE /\
  suggestions st' = Some (Types.suggestions Profiles.ECOMMERCE_PROFILE) /\
  error st' = None /\ isPristine st' = false /\ isAnalyzingUrl st' = false /\ pending st' = [].
Proof.
  apply url_resolved_effect; [reflexivity|discriminate|vm_compute; reflexivity].
Defined.

Lemma advice_settle_effect_witness :
  let st' := run initial [ClickAdvice; Settle 0] in
  suggestions st' = Some (Advice.getDesignAdvice initial_scores) /\ error st' = None.
Proof. destruct (advice_settle_effect initial eq_refl) as [H _]. apply H. reflexivity. Defined.

Lemma env_events_terminate_witness :
  let st := run initial [ClickAdvice] in
  (List.length [Settle 0] <=
     2 * List.length (pending st) + (if debouncePending st then 1 else 0))%nat.
Proof.
  destruct env_events_terminate as (_ & _ & H). apply H; vm_compute; reflexivity.
Defined.


Lemma unguarded_double_fetch_witness :
  let st' := run initial [ClickAdvice; ClickAdvice; Settle 0] in
  isLoading st' = false /\ pending st' = [AdviceTask (debouncedScores initial)].
Proof. apply unguarded_double_fetch. reflexivity. Defined.

End AppTheorems.
