(* ===== verification/Provenance.v ===== *)
(** * Provenance: what the page shows comes from the service (src/App.tsx)

    The page writes [suggestions] in three places (src/App.tsx): it clears
    them when a call starts, [fetchSuggestions] stores the advice
    [getDesignAdvice] settles with, and [handleUrlAnalysis] stores the
    suggestions of the analysis result.  It writes [error] with three fixed
    messages only: the empty-URL message before the call and the failure
    messages in the two [catch]es, which drop the rejection's own message.

    The theorem lifts this to every state the page can reach, in the way
    properties of a step function's outputs are lifted to reachable states:
    a suggestion on the page is the service's advice on a well-formed score
    list or the suggestions of a resolved analysis, and an error on the page
    is one of the page's three messages.  It holds for every
    [StrategyService]. *)
From Stdlib Require Import ZArith List String Bool Lia.
From S2P Require Import Prelude Types Dimensions Advice Profiles Service App.
Import ListNotations.

Module Provenance.
Import App AppTheorems.

Section WithService.
Context `{SVC : StrategyService}.

(** A suggestion the service produced: advice on five well-formed
    sliders, or the suggestions of an analysis that resolved. *)
Definition from_service (s : Suggestion) : Prop :=
  (exists a, slider_wf a /\ advise a = Resolved s) \/
  (exists u r, analyze u = Resolved r /\ s = Types.suggestions r).

(** The messages the page itself sets. *)
Definition page_message (e : option string) : Prop :=
  e = None \/ e = Some url_empty_error \/ e = Some url_failed_error \/ e = Some advice_failed_error.

(** C23: On every reachable state, the suggestions shown are the
    service's advice on a well-formed slider list (the debounced scores at
    the click) or the suggestions of an analysis that resolved, and the
    error shown is none, the empty-URL message or one of the two failure
    messages: a rejection's own message never reaches the page. *)
Theorem shown_from_service (st : State) :
  reachable st ->
  (forall s, suggestions st = Some s -> from_service s) /\ page_message (error st).
Proof.
  induction 1 as [|st ev st' Hr IH Hstep].
  - split; [discriminate|left; reflexivity].
  - inversion Hstep as [? ? Hen]; subst. destruct IH as [IHs IHe].
    destruct ev as [subj v| | |u| | | |i]; simpl; try (split; assumption).
    + unfold handleUrlAnalysis_start. destruct (String.eqb _ _); simpl.
      * split; [assumption|right; left; reflexivity].
      * split; [discriminate|left; reflexivity].
    + split; [discriminate|left; reflexivity].
    + destruct (nth_error (pending st) i) as [[a|u]|] eqn:E; simpl; try (split; assumption).
      * unfold fetchSuggestions_settle. destruct (advise a) as [adv|m] eqn:Ea; simpl.
        -- split; [|assumption]. intros s [= <-]. left. exists a. split; [|exact Ea].
           apply (inv_args st (Inv_reachable st Hr)). eapply nth_error_In. exact E.
        -- split; [assumption|right; right; right; reflexivity].
      * unfold handleUrlAnalysis_settle. destruct (analyze u) as [r|m] eqn:Ea; simpl.
        -- split; [|assumption]. intros s [= <-]. right. exists u, r. split; [exact Ea|reflexivity].
        -- split; [assumption|right; right; left; reflexivity].
Qed.

End WithService.

(** ** Witness *)

(** The page after manual scoring, one slider moved, the debounce timer
    and an advice call that settled. *)
Definition advised_page : State :=
  run initial [StartManualScoring; SliderChange label_ai 8; DebounceFire; ClickAdvice; Settle 0].

Lemma advised_page_reachable : reachable advised_page.
Proof. apply reachable_run; [constructor|vm_compute; reflexivity]. Qed.

Lemma shown_from_service_witness :
  (forall s, suggestions advised_page = Some s -> from_service s) /\ page_message (error advised_page).
Proof. apply shown_from_service, advised_page_reachable. Defined.

End Provenance.
