(* ===== verification/Page.v ===== *)
(** * Page: what the page shows, composed (src/App.tsx, src/components/ScoreControls.tsx)

    [App] renders three components from its state (src/App.tsx, lines
    103-158): [ScoreControls] with the sliders, the URL form and the advice
    button; the chart area, a placeholder while the page is pristine and
    [RadarChartComponent] on the sliders otherwise; and [SuggestionsPanel],
    fed with [isLoading || isAnalyzingUrl] and the memo of [Balance].
    [render_page] is that composition, from an [App.State] to the view of
    each component.  The slider list reads [scores[index].value] for the
    [index]-th entry of [DIMENSIONS] (ScoreControls.tsx, lines 97-120): on
    a shorter list that read throws, so the slider view is an [option].

    The theorems compose the invariant of [App] with the components: on
    every reachable state the page renders without a [TypeError], shows
    the loading state exactly while a call is in flight, draws the chart
    rows of its sliders, and can always get back to a state where a result
    or the prompt is shown. *)
From Stdlib Require Import ZArith List String Bool Lia.
From S2P Require Import Prelude Types Dimensions Balance Advice Profiles Service Chart Panel App.
Import ListNotations.

Module Page.
Import Balance Chart Panel App.
Local Open Scope bool_scope.
Local Open Scope Z_scope.

(** ** The controls *)

(** [{scores[index].value === 0 ? '-' : scores[index].value}]: [None] is
    the grey dash of an unset slider. *)
Definition slider_display (v : Z) : option Z := if v =? 0 then None else Some v.

(** One slider of the list: its label, the number shown, the position of
    the range input and its [disabled]. *)
Record SliderView := mkSliderView {
  sv_key : DimensionKey;
  sv_label : string;
  sv_display : option Z;
  sv_value : Z;
  sv_disabled : bool
}.

(** [DIMENSIONS.map((dimension, index) => ...)]: [None] when some
    [scores[index]] is [undefined], where reading [.value] throws. *)
Fixpoint slider_rows (dims : list Dimension) (index : nat) (scores : list DimensionScore)
    (busy : bool) : option (list SliderView) :=
  match dims with
  | [] => Some []
  | d :: ds =>
      match nth_error scores index, slider_rows ds (S index) scores busy with
      | Some s, Some rest =>
          Some ({| sv_key := key d; sv_label := label d; sv_display := slider_display (value s);
                   sv_value := value s; sv_disabled := busy |} :: rest)
      | _, _ => None
      end
  end.

(** The manual-scoring section: the start button while pristine, else the
    sliders. *)
Inductive Manual :=
| StartButton
| Sliders (rows : option (list SliderView)).

Record ControlsView := mkControlsView {
  cv_inputDisabled : bool;                 (** the URL input and the analyze button *)
  cv_analyzeSpinner : bool;                (** [isAnalyzingUrl ? <LoaderIcon/> : <LinkIcon/>] *)
  cv_inlineError : option string;          (** [{error && ...}] *)
  cv_manual : Manual;
  cv_adviceDisabled : bool;                (** [disabled={isBusy || !hasScores}] *)
  cv_adviceSpinner : bool                  (** [isLoading ? ... : ...] *)
}.

Section WithService.
Context `{SVC : StrategyService}.

(** [ScoreControls] as [App] renders it. *)
Definition scoreControls (st : State) : ControlsView :=
  {| cv_inputDisabled := isBusy st;
     cv_analyzeSpinner := isAnalyzingUrl st;
     cv_inlineError := js_truthy (error st);
     cv_manual := if isPristine st then StartButton
                  else Sliders (slider_rows DIMENSIONS 0 (scores st) (isBusy st));
     cv_adviceDisabled := isBusy st || negb (hasScores st);
     cv_adviceSpinner := isLoading st |}.

(** ** The chart area and the panel *)

Inductive ChartArea :=
| Placeholder
| RadarArea (showComparison : bool) (rows : list ChartRow) (series : list Series).

(** Lines 123-145. *)
Definition chartArea (st : State) : ChartArea :=
  if isPristine st then Placeholder
  else RadarArea (showComparison st) (combinedData (scores st)) (chart_series (showComparison st)).

(** Lines 147-153, with the memo of lines 82-101. *)
Definition panelProps (st : State) : PanelProps :=
  let b := computeBalance (scores st) in
  {| props_suggestions := suggestions st;
     props_isLoading := isLoading st || isAnalyzingUrl st;
     props_error := error st;
     props_balanceIndex := balanceIndex b;
     props_riskWarnings := riskWarnings b |}.

Record PageView := mkPageView {
  page_controls : ControlsView;
  page_chart : ChartArea;
  page_panel : PanelView
}.

(** The [return] of [App]. *)
Definition render_page (st : State) : PageView :=
  {| page_controls := scoreControls st;
     page_chart := chartArea st;
     page_panel := suggestionsPanel (panelProps st) |}.

End WithService.
End Page.

Module PageTheorems.
Import Balance Chart ChartTheorems Panel App AppTheorems Page.
Local Open Scope Z_scope.

Lemma skipn_nth_error {A : Type} (l : list A) (i : nat) (x : A) :
  nth_error l i = Some x -> skipn i l = x :: skipn (S i) l.
Proof.
  revert i. induction l as [|y l IH]; intros [|i] H; try discriminate.
  - injection H as ->. reflexivity.
  - apply IH, H.
Qed.

(** The slider list renders when every [scores[index]] it reads exists:
    the [k]-th row shows the [k]-th dimension and the [k]-th score. *)
Lemma slider_rows_some (dims : list Dimension) (i : nat) (l : list DimensionScore) (busy : bool) :
  (i + List.length dims <= List.length l)%nat ->
  exists rows, slider_rows dims i l busy = Some rows /\
    map sv_label rows = map label dims /\
    map sv_value rows = map value (firstn (List.length dims) (skipn i l)) /\
    Forall (fun r => sv_display r = slider_display (sv_value r) /\ sv_disabled r = busy) rows.
Proof.
  revert i. induction dims as [|d ds IH]; intros i Hlen; [exists []; repeat split; constructor|].
  simpl in Hlen. destruct (nth_error l i) as [s|] eqn:Hs;
    [|apply nth_error_None in Hs; lia].
  destruct (IH (S i) ltac:(lia)) as (rows & Hr & Hl & Hv & Hf).
  eexists. simpl. rewrite Hs, Hr. split; [reflexivity|].
  rewrite (skipn_nth_error l i s Hs). simpl. rewrite Hl, Hv. repeat split; auto.
Qed.

(** On a short list the slider list throws. *)
Lemma slider_rows_none (dims : list Dimension) (i : nat) (l : list DimensionScore) (busy : bool) :
  dims <> [] -> (List.length l < i + List.length dims)%nat -> slider_rows dims i l busy = None.
Proof.
  revert i. induction dims as [|d ds IH]; intros i Hne Hlen; [contradiction|]. simpl.
  destruct (nth_error l i) as [s|] eqn:Hs; [|reflexivity].
  assert (Hi : (i < List.length l)%nat) by (apply nth_error_Some; congruence). simpl in Hlen.
  destruct ds as [|d' ds']; [simpl in Hlen; lia|].
  rewrite IH by (discriminate || lia). reflexivity.
Qed.

Lemma slider_wf_length (l : list DimensionScore) : slider_wf l -> List.length l = 5%nat.
Proof. intros [Hl _]. rewrite <- (length_map subject l), Hl. reflexivity. Qed.

(** With no score set, the memo returns index 0 and no warning. *)
Lemma computeBalance_all_unset (l : list DimensionScore) :
  all_unset l -> computeBalance l = mkBalanceResult 0 [].
Proof.
  intros Hu. assert (Hp : positive_values l = []).
  { apply positive_values_nil_iff. intros s Hs. unfold all_unset in Hu. rewrite Forall_forall in Hu. rewrite (Hu s Hs). lia. }
  unfold computeBalance. rewrite Hp. reflexivity.
Qed.

(** Not loading, the content area shows something else. *)
Lemma renderContent_not_loading (s : option Suggestion) (e : option string) :
  renderContent s false e <> ContentLoading.
Proof. unfold renderContent. destruct (js_truthy e), s; discriminate. Qed.

Lemma busy_pending (st : State) : busy_wf st -> (isBusy st = true <-> pending st <> []).
Proof.
  unfold isBusy. intros [(Hq & Hl & Hu)|[(a & Hq & Hl & Hu)|(u & Hq & Hl & Hu)]];
    rewrite Hq, Hl, Hu; simpl; split; congruence.
Qed.

Section WithService.
Context `{SVC : StrategyService}.

Lemma panel_content (st : State) :
  view_content (page_panel (render_page st))
  = renderContent (suggestions st) (isBusy st) (error st).
Proof. reflexivity. Qed.

(** The timer of [useDebounce] is idle only when the debounced copy is
    up to date: every [setScores] sets it, and it copies the scores when it
    fires. *)
Lemma debounce_sync_step (st : State) (ev : Event) :
  (debouncePending st = false -> debouncedScores st = scores st) ->
  debouncePending (handle st ev) = false -> debouncedScores (handle st ev) = scores (handle st ev).
Proof.
  intros H. destruct ev as [subj v| | |s| | | |i]; simpl; auto; try discriminate.
  - unfold handleUrlAnalysis_start. destruct (String.eqb _ _); exact H.
  - destruct (nth_error (pending st) i) as [[a|u]|]; auto;
      unfold fetchSuggestions_settle, handleUrlAnalysis_settle;
      first [destruct (advise a) | destruct (analyze u)]; simpl; auto; discriminate.
Qed.

Lemma debounce_sync (st : State) :
  reachable st -> debouncePending st = false -> debouncedScores st = scores st.
Proof.
  induction 1 as [|st ev st' _ IH Hstep]; [reflexivity|].
  inversion Hstep; subst. apply debounce_sync_step, IH.
Qed.


(** C34: On a reachable pristine page the chart area is the placeholder,
    the controls offer the start button with the advice button disabled,
    and the panel shows index 0 in red and the reassurance of an empty risk
    radar. *)
Theorem pristine_page_view (st : State) :
  reachable st -> isPristine st = true ->
  let v := render_page st in
  page_chart v = Placeholder /\ cv_manual (page_controls v) = StartButton /\
  cv_adviceDisabled (page_controls v) = true /\
  view_balanceIndex (page_panel v) = 0 /\ view_balanceBorder (page_panel v) = "border-red-500"%string /\
  view_risk (page_panel v) = RiskNone.
Proof.
  intros Hr Hp. destruct (inv_pristine st (Inv_reachable st Hr) Hp) as [Hu _].
  cbn -[computeBalance hasScores]. unfold chartArea. rewrite Hp, (hasScores_unset st Hu), orb_true_r, (computeBalance_all_unset _ Hu).
  repeat split.
Qed.

(** C32: On a reachable page the panel shows the loading state exactly
    while a call is in flight. *)
Theorem page_loading_iff (st : State) :
  reachable st -> (view_content (page_panel (render_page st)) = ContentLoading <-> pending st <> []).
Proof.
  intros Hr. rewrite panel_content, <- (busy_pending st (inv_busy st (Inv_reachable st Hr))).
  destruct (isBusy st); [tauto|]. split; [intros H; now apply renderContent_not_loading in H|discriminate].
Qed.

(** C31: On a reachable page past the start button, the slider list
    renders without a [TypeError]: one slider per dimension in registry
    order, each showing the score whose subject is its own label (so the
    slider a user moves is the score [handleSliderChange] updates), its
    value in 0..10, a dash when unset, disabled while busy. *)
Theorem sliders_render (st : State) :
  reachable st -> isPristine st = false ->
  exists rows, cv_manual (scoreControls st) = Sliders (Some rows) /\
    map sv_label rows = dimension_labels /\ map sv_label rows = map subject (scores st) /\
    map sv_value rows = map value (scores st) /\
    Forall (fun r => 0 <= sv_value r <= 10 /\ sv_display r = slider_display (sv_value r) /\
                     sv_disabled r = isBusy st) rows.
Proof.
  intros Hr Hp. destruct (inv_scores st (Inv_reachable st Hr)) as [Hs Hv].
  pose proof (slider_wf_length _ (conj Hs Hv)) as Hlen.
  destruct (slider_rows_some DIMENSIONS 0 (scores st) (isBusy st) ltac:(simpl; lia))
    as (rows & Hrows & Hl & Hval & Hf).
  exists rows. change (skipn 0 (scores st)) with (scores st) in Hval.
  replace (List.length DIMENSIONS) with (List.length (scores st)) in Hval by (rewrite Hlen; reflexivity).
  rewrite firstn_all in Hval.
  unfold scoreControls; cbn [cv_manual]. rewrite Hp, Hrows, Hl, Hs, Hval.
  repeat split; try reflexivity.
  apply Forall_forall. intros r Hin. rewrite Forall_forall in Hf. split; [|apply Hf, Hin].
  assert (Hvr : In (sv_value r) (map value (scores st))) by (rewrite <- Hval; apply in_map, Hin).
  apply in_map_iff in Hvr as (s & <- & Hs'). rewrite Forall_forall in Hv. apply Hv, Hs'.
Qed.

(** C33: On a reachable page past the start button, the chart draws one
    row per slider, with its label and value and the ideal profile's 9 and
    6 out of 10, and the ideal and feasible series exactly when the
    comparison is on. *)
Theorem chart_rows_reachable (st : State) :
  reachable st -> isPristine st = false ->
  page_chart (render_page st)
  = RadarArea (showComparison st) (map expected_row (scores st)) (chart_series (showComparison st)).
Proof.
  intros Hr Hp. destruct (inv_scores st (Inv_reachable st Hr)) as [Hs _].
  simpl. unfold chartArea. rewrite Hp, (combinedData_aligned _ Hs). reflexivity.
Qed.

(** C27: On a reachable page past the start button, the chart's axis
    shows the five dimension labels in registry order and every point of
    every series drawn is defined and inside the radius domain [0, 10], so
    recharts neither drops nor clips a point.  No series reads the
    [feasible] field of [IDEAL_DATA]: it is merged into every row and never
    drawn. *)
Theorem chart_points_in_domain (st : State) :
  reachable st -> isPristine st = false ->
  let v := radarChartComponent (scores st) (showComparison st) in
  rv_angleLabels v = dimension_labels /\
  Forall (fun sp => Forall (fun p => exists x, p = Some x /\ fst (rv_domain v) <= x <= snd (rv_domain v))
                           (snd sp)) (rv_series v) /\
  ~ In "feasible"%string (map (fun sp => sr_dataKey (fst sp)) (rv_series v)).
Proof.
  intros Hr _. destruct (inv_scores st (Inv_reachable st Hr)) as [Hs Hv].
  unfold radarChartComponent. cbv zeta. rewrite (combinedData_aligned _ Hs).
  repeat split.
  - rewrite map_map. exact Hs.
  - apply Forall_map, Forall_forall. intros sr _. simpl.
    rewrite series_points_expected. apply Forall_map.
    eapply Forall_impl; [|exact Hv]. intros x Hx. eexists. split; [reflexivity|].
    unfold radius_domain. cbv beta in Hx. destruct sr; simpl; lia.
  - rewrite map_map. unfold chart_series. destruct (showComparison st); simpl; intuition discriminate.
Qed.

(** The dot a slider's chart point gets, by its dimension: none while
    unset, the highlighted one for business, user value and AI, the plain
    one otherwise. *)
Definition key_dot (d : Dimension) (v : Z) : Dot :=
  if v =? 0 then NoDot
  else match key d with business | user | ai => KeyDot | tech | zeitgeist => PlainDot end.

(** C25: On a reachable page the chart gives each slider the dot of its
    dimension: no dot while unset, the highlighted dot for business
    viability, user value and AI potential, the plain dot for technical
    feasibility and zeitgeist.  [CustomizedDot] decides by the row's
    [subject], which [combinedData] takes from [IDEAL_DATA], and by the
    labels in [KEY_METRICS]: both must agree with the registry. *)
Theorem chart_dots_reachable (st : State) :
  reachable st ->
  map (fun r => customizedDot (row_subject r) (row_value r)) (combinedData (scores st))
  = map (fun p => key_dot (fst p) (value (snd p))) (combine DIMENSIONS (scores st)).
Proof.
  intros Hr. destruct (inv_scores st (Inv_reachable st Hr)) as [Hs _].
  rewrite (combinedData_aligned _ Hs).
  destruct (scores st) as [|s1 [|s2 [|s3 [|s4 [|s5 [|s6 l]]]]]]; simpl in Hs; try discriminate Hs.
  injection Hs as E1 E2 E3 E4 E5. simpl. rewrite E1, E2, E3, E4, E5.
  unfold customizedDot, key_dot. simpl.
  destruct (value s1 =? 0), (value s2 =? 0), (value s3 =? 0), (value s4 =? 0), (value s5 =? 0);
    reflexivity.
Qed.

(** C29: From every reachable page, letting the call in flight (if any)
    settle is an allowed run of at most one event that ends with no call in
    flight, the inputs enabled and the panel showing a result, an error or
    the prompt instead of the loading state. *)
Theorem page_settles (st : State) :
  reachable st ->
  exists evs, (List.length evs <= 1)%nat /\ run_enabled st evs = true /\
    pending (run st evs) = [] /\ cv_inputDisabled (scoreControls (run st evs)) = false /\
    view_content (page_panel (render_page (run st evs))) <> ContentLoading.
Proof.
  intros Hr. destruct (inv_busy st (Inv_reachable st Hr)) as
    [(Hq & Hl & Hu)|[(a & Hq & Hl & Hu)|(u & Hq & Hl & Hu)]].
  1: { exists []. simpl. unfold isBusy. rewrite Hl, Hu. repeat split; auto.
        apply renderContent_not_loading. }
  all: exists [Settle 0]; simpl; rewrite Hq; simpl;
    unfold fetchSuggestions_settle, handleUrlAnalysis_settle;
    first [destruct (advise a) | destruct (analyze u)]; simpl; unfold isBusy; simpl;
    rewrite ?Hl, ?Hu; repeat split; auto; apply renderContent_not_loading.
Qed.

(** C30: From every reachable idle page with a score set, the user gets
    the service's answer on the sliders as they are: wait for the debounce
    timer if it is set, click the advice button, let the call settle.  The
    run is allowed and ends with the advice in the panel, or with the
    failure message when the service rejects. *)
Theorem advice_eventually_shown (st : State) :
  reachable st -> isBusy st = false -> hasScores st = true ->
  let evs := (if debouncePending st then [DebounceFire] else []) ++ [ClickAdvice; Settle 0] in
  run_enabled st evs = true /\ scores (run st evs) = scores st /\
  view_content (page_panel (render_page (run st evs)))
  = match advise (scores st) with
    | Resolved s => renderContent (Some s) false None
    | Rejected _ => renderContent None false (Some advice_failed_error)
    end.
Proof.
  intros Hr Hb Hs. pose proof (not_busy_idle st (inv_busy st (Inv_reachable st Hr)) Hb) as Hq.
  pose proof (debounce_sync st Hr) as Hd.
  assert (Hu : isAnalyzingUrl st = false) by (unfold isBusy in Hb; apply orb_false_iff in Hb; tauto).
  destruct (debouncePending st) eqn:Ep; simpl.
  - change (isBusy (fireDebounce st)) with (isBusy st).
    change (hasScores (fireDebounce st)) with (hasScores st).
    rewrite Ep, Hb, Hs. simpl. rewrite Hq. simpl.
    unfold fetchSuggestions_settle. destruct (advise (scores st)); simpl; rewrite Hu; repeat split; reflexivity.
  - rewrite Hb, Hs. simpl. rewrite Hq, (Hd eq_refl). simpl.
    unfold fetchSuggestions_settle. destruct (advise (scores st)); simpl; rewrite Hu; repeat split; reflexivity.
Qed.

(** C35: A URL error shows twice: in [ScoreControls] under the URL input
    and in the panel's content area.  An empty URL shows the "enter a
    valid URL" message at once, with no call made; a rejected analysis
    shows the failure message once it settles. *)
Theorem url_error_views (st : State) (m : string) :
  pending st = [] ->
  (urlInput st = ""%string ->
     let v := render_page (run st [ClickAnalyze]) in
     pending (run st [ClickAnalyze]) = [] /\
     cv_inlineError (page_controls v) = Some url_empty_error /\
     view_content (page_panel v) = renderContent (suggestions st) (isBusy st) (Some url_empty_error)) /\
  (urlInput st <> ""%string -> analyze (urlInput st) = Rejected m ->
     let v := render_page (run st [ClickAnalyze; Settle 0]) in
     cv_inlineError (page_controls v) = Some url_failed_error /\
     view_content (page_panel v) = renderContent None (isLoading st) (Some url_failed_error)).
Proof.
  intros Hq. split.
  - intros Hu. simpl. unfold handleUrlAnalysis_start. rewrite Hu. simpl. repeat split. exact Hq.
  - intros Hu Ha. simpl. unfold handleUrlAnalysis_start.
    destruct (String.eqb_spec (urlInput st) ""); [contradiction|].
    simpl. rewrite Hq. simpl. unfold handleUrlAnalysis_settle. simpl. rewrite Ha.
    unfold isBusy. simpl. rewrite orb_false_r. split; reflexivity.
Qed.

End WithService.

(** ** Witnesses *)

(** The page after "start manual scoring" and one slider moved, and the
    same page with an advice call in flight. *)
Definition scored_page : State := run initial [StartManualScoring; SliderChange label_ai 8].
Definition loading_page : State := run scored_page [ClickAdvice].

Lemma scored_page_reachable : reachable scored_page.
Proof. apply reachable_run; [constructor|vm_compute; reflexivity]. Qed.

Lemma loading_page_reachable : reachable loading_page.
Proof. apply reachable_run; [apply scored_page_reachable|vm_compute; reflexivity]. Qed.

Lemma pristine_page_view_witness :
  view_balanceBorder (page_panel (render_page initial)) = "border-red-500"%string.
Proof.
  destruct (pristine_page_view initial reachable_initial eq_refl) as (_ & _ & _ & _ & H & _).
  exact H.
Defined.

Lemma page_loading_iff_witness :
  view_content (page_panel (render_page loading_page)) = ContentLoading.
Proof. apply (page_loading_iff loading_page loading_page_reachable). vm_compute. discriminate. Defined.

Lemma sliders_render_witness :
  exists rows, cv_manual (scoreControls scored_page) = Sliders (Some rows) /\
    map sv_label rows = dimension_labels /\ map sv_label rows = map subject (scores scored_page) /\
    map sv_value rows = map value (scores scored_page) /\
    Forall (fun r => 0 <= sv_value r <= 10 /\ sv_display r = slider_display (sv_value r) /\
                     sv_disabled r = isBusy scored_page) rows.
Proof. apply sliders_render; [apply scored_page_reachable|vm_compute; reflexivity]. Defined.

Lemma chart_rows_reachable_witness :
  page_chart (render_page scored_page)
  = RadarArea (showComparison scored_page) (map expected_row (scores scored_page))
      (chart_series (showComparison scored_page)).
Proof. apply chart_rows_reachable; [apply scored_page_reachable|vm_compute; reflexivity]. Defined.

Lemma chart_points_in_domain_witness :
  let v := radarChartComponent (scores scored_page) (showComparison scored_page) in
  rv_angleLabels v = dimension_labels /\
  Forall (fun sp => Forall (fun p => exists x, p = Some x /\ fst (rv_domain v) <= x <= snd (rv_domain v))
                           (snd sp)) (rv_series v) /\
  ~ In "feasible"%string (map (fun sp => sr_dataKey (fst sp)) (rv_series v)).
Proof. apply chart_points_in_domain; [apply scored_page_reachable|vm_compute; reflexivity]. Defined.


Lemma chart_dots_reachable_witness :
  map (fun r => customizedDot (row_subject r) (row_value r)) (combinedData (scores scored_page))
  = map (fun p => key_dot (fst p) (value (snd p))) (combine DIMENSIONS (scores scored_page)).
Proof. apply chart_dots_reachable, scored_page_reachable. Defined.

Lemma page_settles_witness :
  exists evs, (List.length evs <= 1)%nat /\ run_enabled loading_page evs = true /\
    pending (run loading_page evs) = [] /\ cv_inputDisabled (scoreControls (run loading_page evs)) = false /\
    view_content (page_panel (render_page (run loading_page evs))) <> ContentLoading.
Proof. apply page_settles, loading_page_reachable. Defined.

Lemma advice_eventually_shown_witness :
  let evs := (if debouncePending scored_page then [DebounceFire] else []) ++ [ClickAdvice; Settle 0] in
  run_enabled scored_page evs = true /\ scores (run scored_page evs) = scores scored_page /\
  view_content (page_panel (render_page (run scored_page evs)))
  = renderContent (Some (Advice.getDesignAdvice (scores scored_page))) false None.
Proof.
  destruct (advice_eventually_shown scored_page scored_page_reachable
              ltac:(vm_compute; reflexivity) ltac:(vm_compute; reflexivity)) as (H1 & H2 & H3).
  exact (conj H1 (conj H2 H3)).
Defined.

Lemma url_error_views_witness :
  let st := setUrlInput "not-a-url" initial in
  let v := render_page (run st [ClickAnalyze; Settle 0]) in
  cv_inlineError (page_controls v) = Some url_failed_error /\
 view_content (page_panel v) = renderContent None (isLoading st) (Some url_failed_error).
Proof.
  apply (url_error_views _ Profiles.invalid_url_message); [reflexivity|discriminate|vm_compute; reflexivity].
Defined.

End PageTheorems.
