(* ===== verification/Header.v ===== *)
(** * Header: the page title of src/components/Header.tsx

    [Header] has no state and no props: it is one JSX element tree.  This
    file gives that tree as the sequence of its tags and texts
    ([header_jsx], lines 6-16) and the rule by which JSX, unlike HTML,
    builds elements: every element is closed explicitly, by a closing tag
    naming the innermost open element ([jsx_elements]).  The subtitle at
    line 14 opens a second [<p>] inside the first, and only one [</p>]
    follows, so [</header>] at line 16 meets an open [<p>]: the tree is
    rejected. *)
From Stdlib Require Import List String.
Import ListNotations.

Module Header.
Local Open Scope string_scope.

(** A token of JSX markup: an opening tag, a self-closing element, a
    closing tag, or text. *)
Inductive Token :=
| Open (tag : string)
| SelfClosing (tag : string)
| Close (tag : string)
| Text (s : string).

(** An element tree. *)
Inductive Node :=
| Element (tag : string) (children : list Node)
| TextNode (s : string).

Definition header_title : string := "策略雷達".

Definition header_tagline : string := "一個系統性工具，用於應對現代設計的複雜約束。".

Definition header_tagline2 : string :=
  "透過視覺化您的專案與關鍵成功因素的對齊情況，平衡權衡並做出明智的決策。".

(** The markup of [Header]'s [return], lines 6-16. *)
Definition header_jsx : list Token :=
  [Open "header";
     Open "div";
       SelfClosing "CompassIcon";
       Open "h1"; Text header_title; Close "h1";
     Close "div";
     Open "p";
       Text header_tagline; Open "p"; Text header_tagline2;
     Close "p";
   Close "header"].

(** JSX element building with a stack of open elements, each with its
    children so far (most recent first).  A closing tag must name the
    innermost open element; at the end nothing may be left open and one
    tree must remain.  [None] is a syntax error.  The recursion is on the
    token list. *)
Fixpoint jsx_build (stack : list (string * list Node)) (done_ : list Node) (ts : list Token)
    : option (list Node) :=
  match ts with
  | [] => match stack with [] => Some (rev done_) | _ => None end
  | t :: ts' =>
      let add n := match stack with
                   | [] => jsx_build [] (n :: done_) ts'
                   | (tag, cs) :: st => jsx_build ((tag, n :: cs) :: st) done_ ts'
                   end in
      match t with
      | Open tag => jsx_build ((tag, []) :: stack) done_ ts'
      | SelfClosing tag => add (Element tag [])
      | Text s => add (TextNode s)
      | Close tag =>
          match stack with
          | (tag', cs) :: st =>
              if String.eqb tag tag' then
                match st with
                | [] => jsx_build [] (Element tag' (rev cs) :: done_) ts'
                | (ptag, pcs) :: st' => jsx_build ((ptag, Element tag' (rev cs) :: pcs) :: st') done_ ts'
                end
              else None
          | [] => None
          end
      end
  end.

Definition jsx_elements (ts : list Token) : option (list Node) := jsx_build [] [] ts.

End Header.

Module HeaderTheorems.
Import Header.
Local Open Scope string_scope.

(** The rule accepts the markup once the nested [<p>] is closed: the
    checker is not what rejects [Header]. *)
Theorem header_jsx_closed_parses :
  jsx_elements (firstn 11 header_jsx ++ [Close "p"] ++ skipn 11 header_jsx)
  = Some [Element "header"
            [Element "div" [Element "CompassIcon" []; Element "h1" [TextNode header_title]];
             Element "p" [TextNode header_tagline; Element "p" [TextNode header_tagline2]]]].
Proof. reflexivity. Qed.

(** [Header]'s markup is not a JSX element tree: the subtitle opens
    a [<p>] inside the [<p>] of line 13 and only one [</p>] follows, so
    [</header>] comes while a [<p>] is still open and the JSX parser
    rejects the file. *)
Theorem header_jsx_rejected : jsx_elements header_jsx = None.
Proof. reflexivity. Qed.

End HeaderTheorems.
